(** * aws-whitemap-api: the upload gateway stacks

    A shallow embedding of the two CDK stack definitions of the repository
    ([cdk/lib/cdk-stack.ts], the single-route stack, and its two-route
    sibling with a usage plan) together with the part of the gateway's
    behaviour the stacks configure: response selection by status pattern,
    route matching, and the rewriting of the integration path.

    JS object literals are finite maps from property names to values
    ([gmap string _]); the construct tree a stack builds is an explicit
    state threaded through a small state monad. *)

From stdpp Require Import gmap strings list fin_maps.
From Stdlib Require Import Ascii DecimalString DecimalNat DecimalFacts.

Open Scope string_scope.
Open Scope list_scope.

(** ** Object literals *)

(** [{ ...src, }] placed after the properties [dst] already written:
    every property of [src] is copied, overwriting a property of the
    same name. *)
Definition spread {V} (src dst : gmap string V) : gmap string V := src ∪ dst.

(** ** The construct tree and its state monad *)

Module iam.
Record ServicePrincipal := { service : string }.
Record Role := {
  id : string;
  assumedBy : ServicePrincipal;
  managedPolicies : list string;
  path : string
}.
End iam.

Module s3.
Record IBucket := { id : string; bucketName : string }.
End s3.

Module apigateway.

Inductive PassthroughBehavior := WHEN_NO_MATCH | NEVER | WHEN_NO_TEMPLATES.
Inductive Period := DAY | WEEK | MONTH.

Module IntegrationResponse.
Record t := {
  statusCode : string;
  selectionPattern : option string;
  responseParameters : gmap string string
}.
End IntegrationResponse.

Module IntegrationOptions.
Record t := {
  credentialsRole : iam.Role;
  passthroughBehavior : PassthroughBehavior;
  requestParameters : gmap string string;
  integrationResponses : list IntegrationResponse.t
}.
End IntegrationOptions.

Module AwsIntegration.
Record t := {
  service : string;
  integrationHttpMethod : string;
  path : string;
  options : IntegrationOptions.t
}.
End AwsIntegration.

(** The integration the toolkit gives a preflight method: the gateway
    answers by itself, no service is called. *)
Module MockIntegration.
Record t := {
  requestTemplates : gmap string string;
  integrationResponses : list IntegrationResponse.t
}.
End MockIntegration.

(** What a method can be bound to. *)
Module Integration.
Inductive t := Aws (i : AwsIntegration.t) | Mock (i : MockIntegration.t).

Definition requestParameters (i : t) : gmap string string :=
  match i with
  | Aws a => IntegrationOptions.requestParameters (AwsIntegration.options a)
  | Mock _ => ∅
  end.

Definition integrationResponses (i : t) : list IntegrationResponse.t :=
  match i with
  | Aws a => IntegrationOptions.integrationResponses (AwsIntegration.options a)
  | Mock m => MockIntegration.integrationResponses m
  end.
End Integration.

Module MethodResponse.
Record t := {
  statusCode : string;
  responseParameters : gmap string bool
}.
End MethodResponse.

Module MethodOptions.
Record t := {
  apiKeyRequired : option bool;
  requestParameters : gmap string bool;
  methodResponses : list MethodResponse.t
}.
End MethodOptions.

Module Cors.
Definition ALL_ORIGINS : list string := ["*"].
Definition ALL_METHODS : list string :=
  ["OPTIONS"; "GET"; "PUT"; "POST"; "DELETE"; "PATCH"; "HEAD"].
Definition DEFAULT_HEADERS : list string :=
  ["Content-Type"; "X-Amz-Date"; "Authorization"; "X-Api-Key";
   "X-Amz-Security-Token"; "X-Amz-User-Agent"].
Record Options := {
  allowOrigins : list string;
  allowMethods : list string;
  statusCode : nat
}.
End Cors.

Record StageOptions := { stageName : string }.

Module RestApi.
Record t := {
  id : string;
  restApiName : string;
  deployOptions : StageOptions;
  defaultCorsPreflightOptions : Cors.Options;
  binaryMediaTypes : option (list string)
}.
(** [restApi.deploymentStage]: the stage named by the deploy options. *)
Definition deploymentStage (api : t) : string := stageName (deployOptions api).
End RestApi.

(** A resource is known by the path parts leading to it from the root. *)
Definition Resource := list string.

(** A resource object as the stack code holds it: it knows its API, whose
    default options it inherits. *)
Record IResource := { resourceApi : RestApi.t; resourcePath : Resource }.

(** [restApi.root] *)
Definition root (api : RestApi.t) : IResource :=
  {| resourceApi := api; resourcePath := [] |}.

Module Method.
Record t := {
  resource : Resource;
  httpMethod : string;
  integration : Integration.t;
  options : MethodOptions.t
}.
End Method.

Record ApiKey := { keyId : string }.

#[export] Instance ApiKey_eq_dec : EqDecision ApiKey.
Proof. solve_decision. Defined.

Record QuotaSettings := { limit : nat; period : Period }.
Record ThrottleSettings := { burstLimit : nat; rateLimit : nat }.

Module UsagePlan.
Record t := {
  id : string;
  quota : option QuotaSettings;
  throttle : option ThrottleSettings;
  apiKeys : list ApiKey;
  apiStages : list string
}.
End UsagePlan.

End apigateway.

Module core.

(** What an output exposes: values only known at deployment. *)
Inductive OutputValue :=
| ApiKeyId (keyId : string)
| ApiUrl (restApiName stageName : string).

Record CfnOutput := { id : string; value : OutputValue }.

(** What a stack declares, in declaration order: the constructs the
    stack code creates and those the toolkit adds with them. *)
Record Stack := {
  buckets : list s3.IBucket;
  roles : list iam.Role;
  grantsReadWrite : list (string * string);
  restApis : list apigateway.RestApi.t;
  resources : list apigateway.Resource;
  methods : list apigateway.Method.t;
  apiKeys : list apigateway.ApiKey;
  usagePlans : list apigateway.UsagePlan.t;
  outputs : list CfnOutput
}.

Definition empty : Stack :=
  {| buckets := []; roles := []; grantsReadWrite := []; restApis := [];
     resources := []; methods := []; apiKeys := []; usagePlans := [];
     outputs := [] |}.

(** A construction step reads and extends the stack under construction. *)
Definition Build (A : Type) : Type := Stack → A * Stack.

Definition ret {A} (a : A) : Build A := λ st, (a, st).
Definition bind {A B} (m : Build A) (k : A → Build B) : Build B :=
  λ st, let '(a, st') := m st in k a st'.
Definition modify (f : Stack → Stack) : Build unit := λ st, (tt, f st).
Definition run {A} (m : Build A) : Stack := snd (m empty).

#[export] Instance build_ret : MRet Build := @ret.
#[export] Instance build_bind : MBind Build := λ A B k m, bind m k.

End core.

(** *** The toolkit calls the stacks make *)

Module toolkit.
Import core.

(** [s3.Bucket.fromBucketName(this, id, bucketName)] *)
Definition fromBucketName (id bucketName : string) : Build s3.IBucket :=
  λ st,
    let b := {| s3.id := id; s3.bucketName := bucketName |} in
    (b, {| buckets := buckets st ++ [b]; roles := roles st;
           grantsReadWrite := grantsReadWrite st; restApis := restApis st;
           resources := resources st; methods := methods st;
           apiKeys := apiKeys st; usagePlans := usagePlans st;
           outputs := outputs st |}).

(** [new iam.Role(this, id, props)] *)
Definition newRole (id : string) (assumedBy : iam.ServicePrincipal)
    (managedPolicies : list string) (path : string) : Build iam.Role :=
  λ st,
    let r := {| iam.id := id; iam.assumedBy := assumedBy;
                iam.managedPolicies := managedPolicies; iam.path := path |} in
    (r, {| buckets := buckets st; roles := roles st ++ [r];
           grantsReadWrite := grantsReadWrite st; restApis := restApis st;
           resources := resources st; methods := methods st;
           apiKeys := apiKeys st; usagePlans := usagePlans st;
           outputs := outputs st |}).

(** [bucket.grantReadWrite(role)] *)
Definition grantReadWrite (b : s3.IBucket) (r : iam.Role) : Build unit :=
  modify (λ st,
    {| buckets := buckets st; roles := roles st;
       grantsReadWrite := grantsReadWrite st ++ [(s3.bucketName b, iam.id r)];
       restApis := restApis st;
       resources := resources st; methods := methods st;
       apiKeys := apiKeys st; usagePlans := usagePlans st;
       outputs := outputs st |}).

(** [new core.CfnOutput(this, id, { value })] *)
Definition newCfnOutput (id : string) (value : OutputValue) : Build unit :=
  modify (λ st,
    {| buckets := buckets st; roles := roles st;
       grantsReadWrite := grantsReadWrite st; restApis := restApis st;
       resources := resources st; methods := methods st;
       apiKeys := apiKeys st; usagePlans := usagePlans st;
       outputs := outputs st ++ [{| core.id := id; core.value := value |}] |}).

(** [resource.addMethod(httpMethod, integration, options)] *)
Definition addMethod (r : apigateway.IResource) (httpMethod : string)
    (integration : apigateway.Integration.t)
    (options : apigateway.MethodOptions.t) : Build unit :=
  modify (λ st,
    {| buckets := buckets st; roles := roles st;
       grantsReadWrite := grantsReadWrite st; restApis := restApis st;
       resources := resources st;
       methods := methods st ++
         [{| apigateway.Method.resource := apigateway.resourcePath r;
             apigateway.Method.httpMethod := httpMethod;
             apigateway.Method.integration := integration;
             apigateway.Method.options := options |}];
       apiKeys := apiKeys st; usagePlans := usagePlans st;
       outputs := outputs st |}).

(** [list.join(sep)] *)
Fixpoint join (sep : string) (l : list string) : string :=
  match l with
  | [] => ""
  | x :: r =>
      match r with
      | [] => x
      | _ :: _ => x +:+ sep +:+ join sep r
      end
  end.

(** [`${n}`] for a number *)
Definition toString (n : nat) : string :=
  NilZero.string_of_uint (Nat.to_uint n).

(** The headers [addCorsPreflight] derives from the options, in the order
    it sets them.  It reads [allowOrigins[0]] and refuses an empty list;
    the stacks pass [Cors.ALL_ORIGINS].  A method list holding ANY stands
    for all methods. *)
Definition corsPreflightHeaders (options : apigateway.Cors.Options)
    : list (string * string) :=
  let initialOrigin := default "" (head (apigateway.Cors.allowOrigins options)) in
  let allowMethods :=
    if bool_decide ("ANY" ∈ apigateway.Cors.allowMethods options)
    then apigateway.Cors.ALL_METHODS
    else apigateway.Cors.allowMethods options in
  [("Access-Control-Allow-Headers",
    "'" +:+ join "," apigateway.Cors.DEFAULT_HEADERS +:+ "'");
   ("Access-Control-Allow-Origin", "'" +:+ initialOrigin +:+ "'")]
  ++ (if String.eqb initialOrigin "*" then [] else [("Vary", "'Origin'")])
  ++ [("Access-Control-Allow-Methods", "'" +:+ join "," allowMethods +:+ "'")].

(** The OPTIONS method [addCorsPreflight] puts on a resource: a mock
    integration answering with the status of the options and the
    headers above, none of them depending on the request. *)
Definition corsPreflightMethod (path : apigateway.Resource)
    (options : apigateway.Cors.Options) : apigateway.Method.t :=
  let headers := corsPreflightHeaders options in
  let statusCode := toString (apigateway.Cors.statusCode options) in
  {| apigateway.Method.resource := path;
     apigateway.Method.httpMethod := "OPTIONS";
     apigateway.Method.integration :=
       apigateway.Integration.Mock
         {| apigateway.MockIntegration.requestTemplates :=
              {[ "application/json" := "{ statusCode: 200 }" ]};
            apigateway.MockIntegration.integrationResponses :=
              [ {| apigateway.IntegrationResponse.statusCode := statusCode;
                   apigateway.IntegrationResponse.selectionPattern := None;
                   apigateway.IntegrationResponse.responseParameters :=
                     foldl (λ m h, <["method.response.header." +:+ h.1 := h.2]> m)
                           ∅ headers |} ] |};
     apigateway.Method.options :=
       {| apigateway.MethodOptions.apiKeyRequired := None;
          apigateway.MethodOptions.requestParameters := ∅;
          apigateway.MethodOptions.methodResponses :=
            [ {| apigateway.MethodResponse.statusCode := statusCode;
                 apigateway.MethodResponse.responseParameters :=
                   foldl (λ m h, <["method.response.header." +:+ h.1 := true]> m)
                         ∅ headers |} ] |} |}.

(** [resource.addCorsPreflight(options)] *)
Definition addCorsPreflight (r : apigateway.IResource)
    (options : apigateway.Cors.Options) : Build unit :=
  let m := corsPreflightMethod (apigateway.resourcePath r) options in
  addMethod r (apigateway.Method.httpMethod m)
    (apigateway.Method.integration m) (apigateway.Method.options m).

Definition registerRestApi (api : apigateway.RestApi.t) : Build unit :=
  modify (λ st,
    {| buckets := buckets st; roles := roles st;
       grantsReadWrite := grantsReadWrite st;
       restApis := restApis st ++ [api];
       resources := resources st; methods := methods st;
       apiKeys := apiKeys st; usagePlans := usagePlans st;
       outputs := outputs st |}).

(** [new apigateway.RestApi(this, id, props)].  Besides the API itself
    the toolkit declares, by default, the role the gateway logs with, an
    output with the URL of the deployed stage, and, the API having
    default preflight options, the preflight method of the root. *)
Definition newRestApi (api : apigateway.RestApi.t) : Build apigateway.RestApi.t :=
  registerRestApi api;;
  newRole "CloudWatchRole" {| iam.service := "apigateway.amazonaws.com" |}
    ["service-role/AmazonAPIGatewayPushToCloudWatchLogs"] "/";;
  newCfnOutput "Endpoint"
    (ApiUrl (apigateway.RestApi.restApiName api)
            (apigateway.RestApi.deploymentStage api));;
  addCorsPreflight (apigateway.root api)
    (apigateway.RestApi.defaultCorsPreflightOptions api);;
  mret api.

(** [parent.addResource(pathPart)]: the new resource inherits the default
    preflight options of its API and gets its preflight method at once. *)
Definition addResource (parent : apigateway.IResource) (pathPart : string)
    : Build apigateway.IResource :=
  let r := {| apigateway.resourceApi := apigateway.resourceApi parent;
              apigateway.resourcePath := apigateway.resourcePath parent ++ [pathPart] |} in
  modify (λ st,
    {| buckets := buckets st; roles := roles st;
       grantsReadWrite := grantsReadWrite st; restApis := restApis st;
       resources := resources st ++ [apigateway.resourcePath r];
       methods := methods st;
       apiKeys := apiKeys st; usagePlans := usagePlans st;
       outputs := outputs st |});;
  addCorsPreflight r
    (apigateway.RestApi.defaultCorsPreflightOptions (apigateway.resourceApi r));;
  mret r.

(** [restApi.addApiKey(id)] *)
Definition addApiKey (id : string) : Build apigateway.ApiKey :=
  λ st,
    let k := {| apigateway.keyId := id |} in
    (k, {| buckets := buckets st; roles := roles st;
           grantsReadWrite := grantsReadWrite st; restApis := restApis st;
           resources := resources st; methods := methods st;
           apiKeys := apiKeys st ++ [k]; usagePlans := usagePlans st;
           outputs := outputs st |}).

Definition setUsagePlans (f : list apigateway.UsagePlan.t → list apigateway.UsagePlan.t)
    : Build unit :=
  modify (λ st,
    {| buckets := buckets st; roles := roles st;
       grantsReadWrite := grantsReadWrite st; restApis := restApis st;
       resources := resources st; methods := methods st;
       apiKeys := apiKeys st; usagePlans := f (usagePlans st);
       outputs := outputs st |}).

(** [restApi.addUsagePlan(id, props)]; the plan is returned by its id,
    since later calls mutate the plan held by the stack. *)
Definition addUsagePlan (id : string)
    (quota : option apigateway.QuotaSettings)
    (throttle : option apigateway.ThrottleSettings) : Build string :=
  setUsagePlans (λ ps, ps ++
    [{| apigateway.UsagePlan.id := id;
        apigateway.UsagePlan.quota := quota;
        apigateway.UsagePlan.throttle := throttle;
        apigateway.UsagePlan.apiKeys := [];
        apigateway.UsagePlan.apiStages := [] |}]);;
  mret id.

Definition updatePlan (id : string)
    (f : apigateway.UsagePlan.t → apigateway.UsagePlan.t)
    (p : apigateway.UsagePlan.t) : apigateway.UsagePlan.t :=
  if String.eqb (apigateway.UsagePlan.id p) id then f p else p.

(** [usagePlan.addApiKey(apiKey)] *)
Definition planAddApiKey (plan : string) (k : apigateway.ApiKey) : Build unit :=
  setUsagePlans (map (updatePlan plan (λ p,
    {| apigateway.UsagePlan.id := apigateway.UsagePlan.id p;
       apigateway.UsagePlan.quota := apigateway.UsagePlan.quota p;
       apigateway.UsagePlan.throttle := apigateway.UsagePlan.throttle p;
       apigateway.UsagePlan.apiKeys := apigateway.UsagePlan.apiKeys p ++ [k];
       apigateway.UsagePlan.apiStages := apigateway.UsagePlan.apiStages p |}))).

(** [usagePlan.addApiStage({ stage })] *)
Definition planAddApiStage (plan : string) (stage : string) : Build unit :=
  setUsagePlans (map (updatePlan plan (λ p,
    {| apigateway.UsagePlan.id := apigateway.UsagePlan.id p;
       apigateway.UsagePlan.quota := apigateway.UsagePlan.quota p;
       apigateway.UsagePlan.throttle := apigateway.UsagePlan.throttle p;
       apigateway.UsagePlan.apiKeys := apigateway.UsagePlan.apiKeys p;
       apigateway.UsagePlan.apiStages := apigateway.UsagePlan.apiStages p ++ [stage] |}))).

End toolkit.

(** ** Stack properties *)

Record ClientStackProps := { stackName : string; bucketName : string }.
Record ApiStackProps := { restApiGatewayName : string }.
Record Props := { clientStack : ClientStackProps; apiStack : ApiStackProps }.

(** The properties [cdk/bin/cdk.ts] instantiates the stack with. *)
Definition properties : Props :=
  {| clientStack := {| stackName := "AWSWhiteMapClientStack";
                       bucketName := "aws-whitemap-cloudfront" |};
     apiStack := {| restApiGatewayName := "aws-whitemap-api" |} |}.

Record IntegrationProp := {
  toUploadBucketPath : string;
  restApiRole : iam.Role
}.

(** ** The single-route stack ([cdk/lib/cdk-stack.ts]) *)

Module Simple.
Import core toolkit apigateway.

Definition createRestAPIRole (bucket : s3.IBucket) : Build iam.Role :=
  restApiRole ← newRole "Role"
    {| iam.service := "apigateway.amazonaws.com" |} [] "/";
  grantReadWrite bucket restApiRole;;
  mret restApiRole.

Definition createRestAPIGateway (restApiName : string) : Build RestApi.t :=
  newRestApi
    {| RestApi.id := restApiName;
       RestApi.restApiName := restApiName;
       RestApi.deployOptions := {| stageName := "v1" |};
       RestApi.defaultCorsPreflightOptions :=
         {| Cors.allowOrigins := Cors.ALL_ORIGINS;
            Cors.allowMethods := ["POST"; "OPTIONS"; "PUT"; "DELETE"];
            Cors.statusCode := 200 |};
       RestApi.binaryMediaTypes := None |}.

Definition createServerErrorResponse : IntegrationResponse.t :=
  {| IntegrationResponse.statusCode := "500";
     IntegrationResponse.selectionPattern := Some "5\d{2}";
     IntegrationResponse.responseParameters :=
       <["method.response.header.Access-Control-Allow-Origin" := "'*'"]>
       (<["method.response.header.Access-Control-Allow-Methods" :=
            "'OPTIONS,POST,PUT,GET,DELETE'"]>
       (<["method.response.header.Access-Control-Allow-Headers" :=
            "'Content-Type,Authorization'"]> ∅)) |}.

Definition createNotFoundResponse : IntegrationResponse.t :=
  {| IntegrationResponse.statusCode := "400";
     IntegrationResponse.selectionPattern := Some "4\d{2}";
     IntegrationResponse.responseParameters :=
       IntegrationResponse.responseParameters createServerErrorResponse |}.

Definition createOkResponse : IntegrationResponse.t :=
  {| IntegrationResponse.statusCode := "200";
     IntegrationResponse.selectionPattern := None;
     IntegrationResponse.responseParameters :=
       spread (IntegrationResponse.responseParameters createServerErrorResponse)
       (<["method.response.header.Content-Type" :=
            "integration.response.header.Content-Type"]>
       (<["method.response.header.Content-Length" :=
            "integration.response.header.Content-Length"]>
       (<["method.response.header.Timestamp" :=
            "integration.response.header.Date"]> ∅))) |}.

Definition createAwsIntegrationToUploadBackgroundImage (prop : IntegrationProp)
    : AwsIntegration.t :=
  {| AwsIntegration.service := "s3";
     AwsIntegration.integrationHttpMethod := "PUT";
     AwsIntegration.path := toUploadBucketPath prop;
     AwsIntegration.options :=
       {| IntegrationOptions.credentialsRole := restApiRole prop;
          IntegrationOptions.passthroughBehavior := WHEN_NO_MATCH;
          IntegrationOptions.requestParameters :=
            <["integration.request.path.object" := "method.request.path.fileName"]>
            (<["integration.request.path.folder" := "method.request.path.userId"]> ∅);
          IntegrationOptions.integrationResponses :=
            [ createOkResponse; createNotFoundResponse; createServerErrorResponse ]
       |} |}.

Definition createMethodOptions : MethodOptions.t :=
  let responseParameters : gmap string bool :=
    <["method.response.header.Access-Control-Allow-Origin" := true]>
    (<["method.response.header.Access-Control-Allow-Methods" := true]>
    (<["method.response.header.Access-Control-Allow-Headers" := true]> ∅)) in
  {| MethodOptions.apiKeyRequired := None;
     MethodOptions.requestParameters :=
       <["method.request.path.fileName" := true]>
       (<["method.request.path.userId" := true]> ∅);
     MethodOptions.methodResponses :=
       [ {| MethodResponse.statusCode := "200";
            MethodResponse.responseParameters :=
              spread responseParameters
              (<["method.response.header.Content-Type" := true]>
              (<["method.response.header.Content-Length" := true]>
              (<["method.response.header.Timestamp" := true]> ∅))) |};
         {| MethodResponse.statusCode := "400";
            MethodResponse.responseParameters := responseParameters |};
         {| MethodResponse.statusCode := "500";
            MethodResponse.responseParameters := responseParameters |} ] |}.

Definition constructor (props : Props) : Build unit :=
  bucket ← fromBucketName (stackName (clientStack props))
                          (bucketName (clientStack props));
  restApiRole ← createRestAPIRole bucket;
  restApi ← createRestAPIGateway (restApiGatewayName (apiStack props));
  let integration := createAwsIntegrationToUploadBackgroundImage
    {| toUploadBucketPath :=
         s3.bucketName bucket +:+ "/data/background-images/{folder}/{object}";
       restApiRole := restApiRole |} in
  let methodOptions := createMethodOptions in
  users ← addResource (root restApi) "users";
  userId ← addResource users "{userId}";
  files ← addResource userId "files";
  fileName ← addResource files "{fileName}";
  addMethod fileName "PUT" (Integration.Aws integration) methodOptions.

Definition stack (props : Props) : Stack := run (constructor props).

End Simple.

(** ** The two-route stack with a usage plan *)

Module Extended.
Import core toolkit apigateway.

Definition createRestAPIRole (bucket : s3.IBucket) : Build iam.Role :=
  restApiRole ← newRole "Role"
    {| iam.service := "apigateway.amazonaws.com" |} [] "/";
  grantReadWrite bucket restApiRole;;
  mret restApiRole.

Definition createRestAPIGateway (restApiName : string) : Build RestApi.t :=
  newRestApi
    {| RestApi.id := restApiName;
       RestApi.restApiName := restApiName;
       RestApi.deployOptions := {| stageName := "v1" |};
       RestApi.defaultCorsPreflightOptions :=
         {| Cors.allowOrigins := Cors.ALL_ORIGINS;
            Cors.allowMethods := ["POST"; "OPTIONS"; "PUT"; "DELETE"];
            Cors.statusCode := 200 |};
       RestApi.binaryMediaTypes := Some ["image/*"; "audio/*"] |}.

Definition createUsagePlan (restApi : RestApi.t) (props : Props) : Build unit :=
  apiKey ← addApiKey "defaultKeys";
  usagePlan ← addUsagePlan (restApiGatewayName (apiStack props) +:+ "-usage-plan")
    (Some {| limit := 30; period := DAY |})
    (Some {| burstLimit := 2; rateLimit := 1 |});
  planAddApiKey usagePlan apiKey;;
  planAddApiStage usagePlan (RestApi.deploymentStage restApi);;
  newCfnOutput "APIKey" (ApiKeyId (keyId apiKey)).

Definition createServerErrorResponse : IntegrationResponse.t :=
  {| IntegrationResponse.statusCode := "500";
     IntegrationResponse.selectionPattern := Some "5\d{2}";
     IntegrationResponse.responseParameters :=
       <["method.response.header.Access-Control-Allow-Origin" := "'*'"]>
       (<["method.response.header.Access-Control-Allow-Methods" :=
            "'OPTIONS,POST,PUT,GET,DELETE'"]>
       (<["method.response.header.Access-Control-Allow-Headers" :=
            "'Content-Type,Authorization'"]> ∅)) |}.

Definition createNotFoundResponse : IntegrationResponse.t :=
  {| IntegrationResponse.statusCode := "400";
     IntegrationResponse.selectionPattern := Some "4\d{2}";
     IntegrationResponse.responseParameters :=
       IntegrationResponse.responseParameters createServerErrorResponse |}.

Definition createOkResponse : IntegrationResponse.t :=
  {| IntegrationResponse.statusCode := "200";
     IntegrationResponse.selectionPattern := None;
     IntegrationResponse.responseParameters :=
       spread (IntegrationResponse.responseParameters createServerErrorResponse)
       (<["method.response.header.Content-Type" :=
            "integration.response.header.Content-Type"]>
       (<["method.response.header.Content-Length" :=
            "integration.response.header.Content-Length"]>
       (<["method.response.header.Timestamp" :=
            "integration.response.header.Date"]> ∅))) |}.

Definition createAwsIntegrationToUploadBucket (prop : IntegrationProp)
    : AwsIntegration.t :=
  {| AwsIntegration.service := "s3";
     AwsIntegration.integrationHttpMethod := "PUT";
     AwsIntegration.path := toUploadBucketPath prop;
     AwsIntegration.options :=
       {| IntegrationOptions.credentialsRole := restApiRole prop;
          IntegrationOptions.passthroughBehavior := WHEN_NO_MATCH;
          IntegrationOptions.requestParameters :=
            <["integration.request.path.object" := "method.request.path.fileName"]>
            (<["integration.request.path.folder" := "method.request.path.userId"]>
            (<["integration.request.header.Content-Type" :=
                 "method.request.header.Content-Type"]> ∅));
          IntegrationOptions.integrationResponses :=
            [ createOkResponse; createNotFoundResponse; createServerErrorResponse ]
       |} |}.

Definition createMethodOptions : MethodOptions.t :=
  let responseParameters : gmap string bool :=
    <["method.response.header.Access-Control-Allow-Origin" := true]>
    (<["method.response.header.Access-Control-Allow-Methods" := true]>
    (<["method.response.header.Access-Control-Allow-Headers" := true]> ∅)) in
  {| MethodOptions.apiKeyRequired := Some true;
     MethodOptions.requestParameters :=
       <["method.request.path.fileName" := true]>
       (<["method.request.path.userId" := true]>
       (<["method.request.header.Content-Type" := true]> ∅));
     MethodOptions.methodResponses :=
       [ {| MethodResponse.statusCode := "200";
            MethodResponse.responseParameters :=
              spread responseParameters
              (<["method.response.header.Content-Type" := true]>
              (<["method.response.header.Content-Length" := true]>
              (<["method.response.header.Timestamp" := true]> ∅))) |};
         {| MethodResponse.statusCode := "400";
            MethodResponse.responseParameters := responseParameters |};
         {| MethodResponse.statusCode := "500";
            MethodResponse.responseParameters := responseParameters |} ] |}.

Definition constructor (props : Props) : Build unit :=
  bucket ← fromBucketName (stackName (clientStack props))
                          (bucketName (clientStack props));
  restApiRole ← createRestAPIRole bucket;
  restApi ← createRestAPIGateway (restApiGatewayName (apiStack props));
  createUsagePlan restApi props;;
  let backgroundImageIntegration := createAwsIntegrationToUploadBucket
    {| toUploadBucketPath :=
         s3.bucketName bucket +:+ "/data/background-images/{folder}/{object}";
       restApiRole := restApiRole |} in
  let bgmIntegration := createAwsIntegrationToUploadBucket
    {| toUploadBucketPath :=
         s3.bucketName bucket +:+ "/data/bgms/{folder}/{object}";
       restApiRole := restApiRole |} in
  let methodOptions := createMethodOptions in
  users ← addResource (root restApi) "users";
  userId ← addResource users "{userId}";
  files ← addResource userId "files";
  background ← addResource files "background-images";
  fileName ← addResource background "{fileName}";
  addMethod fileName "PUT" (Integration.Aws backgroundImageIntegration)
    methodOptions;;
  bgms ← addResource files "bgms";
  bgmFileName ← addResource bgms "{fileName}";
  addMethod bgmFileName "PUT" (Integration.Aws bgmIntegration) methodOptions.

Definition stack (props : Props) : Stack := run (constructor props).

End Extended.

(** ** What the gateway does with a configuration

    The stacks only declare; the gateway interprets.  This module holds the
    three interpretations the declarations are written for: status
    patterns, route templates and the integration path template. *)

Module gateway.
Import core apigateway.

(** *** Selection patterns

    The fragment of regular expressions the stacks use: a sequence of
    atoms, each a literal character or the class [\d], each optionally
    followed by a count [{n}].  A pattern selects a status when it
    matches the whole status text. *)

Inductive atom := Lit (c : ascii) | Digit.

Definition regex := list (atom * nat).

Definition digit_value (c : ascii) : option nat :=
  let n := nat_of_ascii c in
  if ((48 <=? n) && (n <=? 57))%nat then Some (n - 48) else None.

Definition atom_accepts (a : atom) (c : ascii) : bool :=
  match a with
  | Lit c' => Ascii.eqb c' c
  | Digit => bool_decide (is_Some (digit_value c))
  end.

Definition is_meta (c : ascii) : bool :=
  bool_decide (c ∈ String.list_ascii_of_string ".*+?()[]{}|^$\").

Inductive pstate :=
| PStart
| PEscape
| PAtom (a : atom)
| PCount (a : atom) (n : option nat).

(** The state reached by reading [c] where an atom may begin. *)
Definition begin_atom (c : ascii) : option pstate :=
  if Ascii.eqb c "\" then Some PEscape
  else if is_meta c then None
  else Some (PAtom (Lit c)).

Fixpoint parse_from (st : pstate) (s : string) : option regex :=
  match s with
  | EmptyString =>
      match st with
      | PStart => Some []
      | PAtom a => Some [(a, 1)]
      | PEscape | PCount _ _ => None
      end
  | String c r =>
      match st with
      | PStart => st' ← begin_atom c; parse_from st' r
      | PEscape =>
          if Ascii.eqb c "d" then parse_from (PAtom Digit) r
          else if is_meta c then parse_from (PAtom (Lit c)) r
          else None
      | PAtom a =>
          if Ascii.eqb c "{" then parse_from (PCount a None) r
          else st' ← begin_atom c; re ← parse_from st' r; Some ((a, 1) :: re)
      | PCount a n =>
          if Ascii.eqb c "}" then
            k ← n; re ← parse_from PStart r; Some ((a, k) :: re)
          else
            d ← digit_value c;
            parse_from (PCount a (Some (10 * default 0 n + d))) r
      end
  end.

Definition parse_pattern : string → option regex := parse_from PStart.

(** Read exactly [n] characters accepted by [a]. *)
Fixpoint consume (a : atom) (n : nat) (s : string) : option string :=
  match n with
  | 0 => Some s
  | S n' =>
      match s with
      | String c r => if atom_accepts a c then consume a n' r else None
      | EmptyString => None
      end
  end.

Fixpoint matches (re : regex) (s : string) : bool :=
  match re with
  | [] => bool_decide (s = "")
  | (a, n) :: re' =>
      match consume a n s with
      | Some r => matches re' r
      | None => false
      end
  end.

Definition pattern_matches (pattern status : string) : bool :=
  match parse_pattern pattern with
  | Some re => matches re status
  | None => false
  end.

(** The text of a numeric status code. *)
Definition status_text (code : nat) : string :=
  NilZero.string_of_uint (Nat.to_uint code).

Definition has_pattern_for (status : string) (r : IntegrationResponse.t) : bool :=
  match IntegrationResponse.selectionPattern r with
  | Some p => pattern_matches p status
  | None => false
  end.

Definition is_default (r : IntegrationResponse.t) : bool :=
  bool_decide (IntegrationResponse.selectionPattern r = None).

(** The selection predicate of one entry of a response table: an entry
    with a pattern is selected by the statuses its pattern matches, the
    entry without one by the statuses no pattern of the table matches. *)
Definition selects (table : list IntegrationResponse.t)
    (r : IntegrationResponse.t) (status : string) : bool :=
  match IntegrationResponse.selectionPattern r with
  | Some p => pattern_matches p status
  | None => negb (existsb (has_pattern_for status) table)
  end.

(** The entry the gateway answers with: the first whose pattern matches,
    else the default entry. *)
Definition selectIntegrationResponse (table : list IntegrationResponse.t)
    (status : string) : option IntegrationResponse.t :=
  match find (has_pattern_for status) table with
  | Some r => Some r
  | None => find is_default table
  end.

(** *** Routes *)

(** [{name}] as a path part stands for a path parameter [name]. *)
Fixpoint strip_close (s : string) : option string :=
  match s with
  | EmptyString => None
  | String c EmptyString => if Ascii.eqb c "}" then Some "" else None
  | String c r => String c <$> strip_close r
  end.

Definition path_variable (part : string) : option string :=
  match part with
  | String c r => if Ascii.eqb c "{" then strip_close r else None
  | EmptyString => None
  end.

(** Match request path segments against the parts of a resource,
    binding path parameters in order. *)
Fixpoint match_parts (parts segments : list string)
    : option (list (string * string)) :=
  match parts, segments with
  | [], [] => Some []
  | p :: parts', s :: segments' =>
      match path_variable p with
      | Some name =>
          bs ← match_parts parts' segments'; Some ((name, s) :: bs)
      | None =>
          if String.eqb p s then match_parts parts' segments' else None
      end
  | _, _ => None
  end.

(** A request as the gateway sees it: verb, path segments, and the
    provisioned API key whose value its x-api-key header carries, if it
    carries one. *)
Record Request := {
  requestMethod : string;
  requestPath : list string;
  requestApiKey : option ApiKey
}.

Fixpoint route (ms : list Method.t) (req : Request)
    : option (Method.t * list (string * string)) :=
  match ms with
  | [] => None
  | m :: ms' =>
      if String.eqb (Method.httpMethod m) (requestMethod req) then
        match match_parts (Method.resource m) (requestPath req) with
        | Some bs => Some (m, bs)
        | None => route ms' req
        end
      else route ms' req
  end.

(** *** The integration path *)

Fixpoint lookup_param (name : string) (bs : list (string * string))
    : option string :=
  match bs with
  | [] => None
  | (n, v) :: bs' => if String.eqb n name then Some v else lookup_param name bs'
  end.

Fixpoint strip_prefix (p s : string) : option string :=
  match p, s with
  | EmptyString, _ => Some s
  | String a p', String b s' => if Ascii.eqb a b then strip_prefix p' s' else None
  | String _ _, EmptyString => None
  end.

(** The value an integration path variable takes: the request mapping
    names a method request path parameter, the route supplies it. *)
Definition path_binding (requestParameters : gmap string string)
    (pathParams : list (string * string)) (name : string) : option string :=
  src ← requestParameters !! ("integration.request.path." +:+ name);
  param ← strip_prefix "method.request.path." src;
  lookup_param param pathParams.

(** Replace every [{name}] of a path template by its binding; a
    variable without binding, or an unclosed brace, has no expansion. *)
Fixpoint expand_from (env : string → option string) (var : option string)
    (s : string) : option string :=
  match s with
  | EmptyString =>
      match var with None => Some "" | Some _ => None end
  | String c r =>
      match var with
      | None =>
          if Ascii.eqb c "{" then expand_from env (Some "") r
          else String c <$> expand_from env None r
      | Some name =>
          if Ascii.eqb c "}" then
            v ← env name; rest ← expand_from env None r; Some (v +:+ rest)
          else expand_from env (Some (name +:+ String c "")) r
      end
  end.

Definition expand (env : string → option string) : string → option string :=
  expand_from env None.

(** The storage service reads the first segment of the path as the
    bucket and the remainder as the object key. *)
Fixpoint split_bucket (s : string) : string * string :=
  match s with
  | EmptyString => ("", "")
  | String c r =>
      if Ascii.eqb c "/" then ("", r)
      else let '(b, k) := split_bucket r in (String c b, k)
  end.

Record Target := { bucket : string; key : string }.

(** The path of the service call an integration makes for a request
    with the given path parameters. *)
Definition integration_path (i : AwsIntegration.t)
    (pathParams : list (string * string)) : option string :=
  expand (path_binding
            (IntegrationOptions.requestParameters (AwsIntegration.options i))
            pathParams)
         (AwsIntegration.path i).

(** The object a request addresses: the bucket and key its route's
    integration derives for the storage service.  This is the address
    only; whether the request is admitted and what is done to the object
    is [forward]'s. *)
Definition upload_target (st : Stack) (req : Request) : option Target :=
  match route (methods st) req with
  | None => None
  | Some (m, pathParams) =>
      match Method.integration m with
      | Integration.Aws i =>
          if String.eqb (AwsIntegration.service i) "s3" then
            p ← integration_path i pathParams;
            Some {| bucket := (split_bucket p).1; key := (split_bucket p).2 |}
          else None
      | Integration.Mock _ => None
      end
  end.

Definition storage_key (st : Stack) (req : Request) : option string :=
  key <$> upload_target st req.

(** [free_of c s]: the character [c] does not occur in [s]. *)
Fixpoint free_of (c : ascii) (s : string) : bool :=
  match s with
  | EmptyString => true
  | String a r => negb (Ascii.eqb a c) && free_of c r
  end.

(** A path parameter value is one non-empty segment of the request
    path: segments are what lies between two slashes. *)
Definition valid_path_param (s : string) : bool :=
  negb (String.eqb s "") && free_of "/" s.

(** A bucket name the path template can carry as its first segment. *)
Definition plain_bucket_name (s : string) : bool :=
  free_of "/" s && free_of "{" s.

Definition put (segments : list string) : Request :=
  {| requestMethod := "PUT"; requestPath := segments; requestApiKey := None |}.

(** *** Admission and the service call *)

(** A key is good for the stack when a usage plan holds it and covers
    the deployed stage of the API. *)
Definition key_in_plan (st : Stack) (k : ApiKey) : bool :=
  existsb (λ plan,
    bool_decide (k ∈ UsagePlan.apiKeys plan) &&
    existsb (λ api, bool_decide (RestApi.deploymentStage api
                                   ∈ UsagePlan.apiStages plan))
            (restApis st))
    (usagePlans st).

(** A method that requires an API key admits only requests presenting a
    good one; a method that does not admits every request.  Parameters
    declared as required are not checked, the stacks attaching no request
    validator; the rate limits of the plan act on the traffic over time
    and are not decided here. *)
Definition admitted (st : Stack) (m : Method.t) (req : Request) : bool :=
  match MethodOptions.apiKeyRequired (Method.options m) with
  | Some true =>
      match requestApiKey req with
      | Some k => key_in_plan st k
      | None => false
      end
  | _ => true
  end.

Record ServiceCall := {
  callService : string;
  callMethod : string;
  callPath : string
}.

(** The service call the gateway makes for a request: none when no
    method matches, when the method does not admit the request, or when
    the method is answered by a mock integration. *)
Definition forward (st : Stack) (req : Request) : option ServiceCall :=
  match route (methods st) req with
  | None => None
  | Some (m, pathParams) =>
      if admitted st m req then
        match Method.integration m with
        | Integration.Aws i =>
            p ← integration_path i pathParams;
            Some {| callService := AwsIntegration.service i;
                    callMethod := AwsIntegration.integrationHttpMethod i;
                    callPath := p |}
        | Integration.Mock _ => None
        end
      else None
  end.

(** The object a request writes: the call must be a PUT to the storage
    service. *)
Definition stored_object (st : Stack) (req : Request) : option Target :=
  call ← forward st req;
  if String.eqb (callService call) "s3" && String.eqb (callMethod call) "PUT"
  then Some {| bucket := (split_bucket (callPath call)).1;
               key := (split_bucket (callPath call)).2 |}
  else None.

(** *** Response headers *)

Fixpoint strip_last (c : ascii) (s : string) : option string :=
  match s with
  | EmptyString => None
  | String a EmptyString => if Ascii.eqb a c then Some "" else None
  | String a r => String a <$> strip_last c r
  end.

(** A value written between single quotes is a literal. *)
Definition static_value (v : string) : option string :=
  match v with
  | String c r => if Ascii.eqb c "'" then strip_last "'" r else None
  | EmptyString => None
  end.

(** The value a response parameter evaluates to: its literal, or the
    header of the storage service's answer it names. *)
Definition response_value (upstream : gmap string string) (v : string)
    : option string :=
  match static_value v with
  | Some literal => Some literal
  | None =>
      name ← strip_prefix "integration.response.header." v;
      upstream !! name
  end.

(** The value, if any, of the header [name] in the answer built from the
    entry [r]. *)
Definition response_header (r : IntegrationResponse.t)
    (upstream : gmap string string) (name : string) : option string :=
  v ← IntegrationResponse.responseParameters r
        !! ("method.response.header." +:+ name);
  response_value upstream v.

End gateway.

(** * Properties of the response tables *)

Import apigateway gateway.

Section ResponseTables.

Variable prop : IntegrationProp.

Definition simple_table : list IntegrationResponse.t :=
  IntegrationOptions.integrationResponses
    (AwsIntegration.options (Simple.createAwsIntegrationToUploadBackgroundImage prop)).

Definition extended_table : list IntegrationResponse.t :=
  IntegrationOptions.integrationResponses
    (AwsIntegration.options (Extended.createAwsIntegrationToUploadBucket prop)).

End ResponseTables.

(** The methods the stacks hold: the preflight method of a resource,
    built from the options both stacks give their API, and the upload
    methods the constructors add. *)
Definition stack_cors : Cors.Options :=
  {| Cors.allowOrigins := Cors.ALL_ORIGINS;
     Cors.allowMethods := ["POST"; "OPTIONS"; "PUT"; "DELETE"];
     Cors.statusCode := 200 |}.

Definition preflight (r : Resource) : Method.t :=
  toolkit.corsPreflightMethod r stack_cors.

Definition stack_role : iam.Role :=
  {| iam.id := "Role";
     iam.assumedBy := {| iam.service := "apigateway.amazonaws.com" |};
     iam.managedPolicies := [];
     iam.path := "/" |}.

Definition simple_upload_method (props : Props) : Method.t :=
  {| Method.resource := ["users"; "{userId}"; "files"; "{fileName}"];
     Method.httpMethod := "PUT";
     Method.integration :=
       Integration.Aws (Simple.createAwsIntegrationToUploadBackgroundImage
         {| toUploadBucketPath :=
              bucketName (clientStack props) +:+
              "/data/background-images/{folder}/{object}";
            restApiRole := stack_role |});
     Method.options := Simple.createMethodOptions |}.

Definition extended_image_method (props : Props) : Method.t :=
  {| Method.resource :=
       ["users"; "{userId}"; "files"; "background-images"; "{fileName}"];
     Method.httpMethod := "PUT";
     Method.integration :=
       Integration.Aws (Extended.createAwsIntegrationToUploadBucket
         {| toUploadBucketPath :=
              bucketName (clientStack props) +:+
              "/data/background-images/{folder}/{object}";
            restApiRole := stack_role |});
     Method.options := Extended.createMethodOptions |}.

Definition extended_bgm_method (props : Props) : Method.t :=
  {| Method.resource := ["users"; "{userId}"; "files"; "bgms"; "{fileName}"];
     Method.httpMethod := "PUT";
     Method.integration :=
       Integration.Aws (Extended.createAwsIntegrationToUploadBucket
         {| toUploadBucketPath :=
              bucketName (clientStack props) +:+ "/data/bgms/{folder}/{object}";
            restApiRole := stack_role |});
     Method.options := Extended.createMethodOptions |}.

(** The verdict of the two patterns on the codes of each class, checked
    code by code. *)
Definition class_verdict (lo : nat) (client server : bool) : bool :=
  forallb (λ code,
    Bool.eqb (pattern_matches "4\d{2}" (status_text code)) client &&
    Bool.eqb (pattern_matches "5\d{2}" (status_text code)) server)
    (seq lo 100).

(** The construction of a stack never looks at the role or the path of
    the integration when it lays out the response table. *)
Lemma simple_table_eq prop :
  simple_table prop =
  [Simple.createOkResponse; Simple.createNotFoundResponse;
   Simple.createServerErrorResponse].
Proof. reflexivity. Qed.

Lemma extended_table_eq prop :
  extended_table prop =
  [Extended.createOkResponse; Extended.createNotFoundResponse;
   Extended.createServerErrorResponse].
Proof. reflexivity. Qed.

(** Spreading an object into a literal keeps every property of the
    object that is spread. *)
Lemma spread_keeps {V} (src dst : gmap string V) : src ⊆ spread src dst.
Proof. unfold spread. apply map_union_subseteq_l. Qed.

Lemma spread_lookup_src {V} (src dst : gmap string V) k v :
  src !! k = Some v → spread src dst !! k = Some v.
Proof. intros H. unfold spread. by apply lookup_union_Some_l. Qed.

Lemma spread_lookup_dst {V} (src dst : gmap string V) k :
  src !! k = None → spread src dst !! k = dst !! k.
Proof. intros H. unfold spread. by apply lookup_union_r. Qed.

(** The methods of a stack, in the order the construction adds them:
    every resource gets its preflight method when it is created, the
    upload methods come from the constructor. *)
Lemma simple_methods props :
  core.methods (Simple.stack props) =
  [ preflight [];
    preflight ["users"];
    preflight ["users"; "{userId}"];
    preflight ["users"; "{userId}"; "files"];
    preflight ["users"; "{userId}"; "files"; "{fileName}"];
    simple_upload_method props ].
Proof. reflexivity. Qed.

Lemma extended_methods props :
  core.methods (Extended.stack props) =
  [ preflight [];
    preflight ["users"];
    preflight ["users"; "{userId}"];
    preflight ["users"; "{userId}"; "files"];
    preflight ["users"; "{userId}"; "files"; "background-images"];
    preflight ["users"; "{userId}"; "files"; "background-images"; "{fileName}"];
    extended_image_method props;
    preflight ["users"; "{userId}"; "files"; "bgms"];
    preflight ["users"; "{userId}"; "files"; "bgms"; "{fileName}"];
    extended_bgm_method props ].
Proof. reflexivity. Qed.

(** C1. Every integration either stack builds answers through a table of
    exactly three entries, in this order: a default entry with status 200
    that passes the upstream Content-Type and Content-Length through and
    renames the upstream Date to Timestamp; an entry with status 400
    selected by the pattern 4\d{2}; an entry with status 500 selected by
    the pattern 5\d{2}. *)
Theorem response_mapping_three_tiers (prop : IntegrationProp) :
  Forall (λ table : list IntegrationResponse.t,
    ∃ ok clientError serverError,
      table = [ok; clientError; serverError] ∧
      IntegrationResponse.statusCode ok = "200" ∧
      IntegrationResponse.selectionPattern ok = None ∧
      IntegrationResponse.responseParameters ok
        !! "method.response.header.Content-Type"
        = Some "integration.response.header.Content-Type" ∧
      IntegrationResponse.responseParameters ok
        !! "method.response.header.Content-Length"
        = Some "integration.response.header.Content-Length" ∧
      IntegrationResponse.responseParameters ok
        !! "method.response.header.Timestamp"
        = Some "integration.response.header.Date" ∧
      IntegrationResponse.statusCode clientError = "400" ∧
      IntegrationResponse.selectionPattern clientError = Some "4\d{2}" ∧
      IntegrationResponse.statusCode serverError = "500" ∧
      IntegrationResponse.selectionPattern serverError = Some "5\d{2}")
    [simple_table prop; extended_table prop].
Proof.
  repeat constructor.
  - exists Simple.createOkResponse, Simple.createNotFoundResponse,
      Simple.createServerErrorResponse.
    repeat split; reflexivity.
  - exists Extended.createOkResponse, Extended.createNotFoundResponse,
      Extended.createServerErrorResponse.
    repeat split; reflexivity.
Qed.

(** The 200 entry spreads the base entry's parameters into its own. *)
Lemma simple_ok_extends_base :
  IntegrationResponse.responseParameters Simple.createServerErrorResponse
    ⊆ IntegrationResponse.responseParameters Simple.createOkResponse.
Proof. apply spread_keeps. Qed.

Lemma extended_ok_extends_base :
  IntegrationResponse.responseParameters Extended.createServerErrorResponse
    ⊆ IntegrationResponse.responseParameters Extended.createOkResponse.
Proof. apply spread_keeps. Qed.

(** The 400 entry takes the base entry's parameters as they are. *)
Lemma simple_client_error_is_base :
  IntegrationResponse.responseParameters Simple.createNotFoundResponse
    = IntegrationResponse.responseParameters Simple.createServerErrorResponse.
Proof. reflexivity. Qed.

Lemma extended_client_error_is_base :
  IntegrationResponse.responseParameters Extended.createNotFoundResponse
    = IntegrationResponse.responseParameters Extended.createServerErrorResponse.
Proof. reflexivity. Qed.

(** C3. In both stacks the response parameters of the 400 entry are those
    of the 500 entry, and the response parameters of the 200 entry
    contain them: the 500 entry is the base the other two are built on. *)
Theorem error_tiers_share_base :
  (IntegrationResponse.responseParameters Simple.createNotFoundResponse
     = IntegrationResponse.responseParameters Simple.createServerErrorResponse ∧
   IntegrationResponse.responseParameters Simple.createServerErrorResponse
     ⊆ IntegrationResponse.responseParameters Simple.createOkResponse) ∧
  (IntegrationResponse.responseParameters Extended.createNotFoundResponse
     = IntegrationResponse.responseParameters Extended.createServerErrorResponse ∧
   IntegrationResponse.responseParameters Extended.createServerErrorResponse
     ⊆ IntegrationResponse.responseParameters Extended.createOkResponse).
Proof.
  split; split.
  - exact simple_client_error_is_base.
  - exact simple_ok_extends_base.
  - exact extended_client_error_is_base.
  - exact extended_ok_extends_base.
Qed.






(** C10. The two stacks build the same response table: entry by entry
    the status code, the selection pattern and the response parameters
    agree, and so do the tables of the integrations built from them. *)
Theorem variants_same_response_table (prop : IntegrationProp) :
  (IntegrationResponse.statusCode Simple.createOkResponse
     = IntegrationResponse.statusCode Extended.createOkResponse ∧
   IntegrationResponse.selectionPattern Simple.createOkResponse
     = IntegrationResponse.selectionPattern Extended.createOkResponse ∧
   IntegrationResponse.responseParameters Simple.createOkResponse
     = IntegrationResponse.responseParameters Extended.createOkResponse) ∧
  (IntegrationResponse.statusCode Simple.createNotFoundResponse
     = IntegrationResponse.statusCode Extended.createNotFoundResponse ∧
   IntegrationResponse.selectionPattern Simple.createNotFoundResponse
     = IntegrationResponse.selectionPattern Extended.createNotFoundResponse ∧
   IntegrationResponse.responseParameters Simple.createNotFoundResponse
     = IntegrationResponse.responseParameters Extended.createNotFoundResponse) ∧
  (IntegrationResponse.statusCode Simple.createServerErrorResponse
     = IntegrationResponse.statusCode Extended.createServerErrorResponse ∧
   IntegrationResponse.selectionPattern Simple.createServerErrorResponse
     = IntegrationResponse.selectionPattern Extended.createServerErrorResponse ∧
   IntegrationResponse.responseParameters Simple.createServerErrorResponse
     = IntegrationResponse.responseParameters Extended.createServerErrorResponse) ∧
  simple_table prop = extended_table prop.
Proof.
  repeat split.
Qed.

(** * Properties of the method declarations *)

Lemma extended_usage_plans props :
  core.usagePlans (Extended.stack props) =
  [ {| UsagePlan.id := restApiGatewayName (apiStack props) +:+ "-usage-plan";
       UsagePlan.quota := Some {| limit := 30; period := DAY |};
       UsagePlan.throttle := Some {| burstLimit := 2; rateLimit := 1 |};
       UsagePlan.apiKeys := [ {| keyId := "defaultKeys" |} ];
       UsagePlan.apiStages := ["v1"] |} ].
Proof.
  unfold Extended.stack, core.run. simpl.
  unfold toolkit.updatePlan. simpl.
  rewrite !String.eqb_refl. reflexivity.
Qed.

(** C7. Both stacks mark the path parameters userId and fileName as
    required; only the two-route stack marks the Content-Type request
    header as required, and only it requires an API key, being the
    stack that declares a usage plan.  These declarations are the ones
    the upload methods carry, the methods of each stack other than the
    preflight methods. *)
Theorem method_request_requirements (props : Props) :
  (MethodOptions.requestParameters Simple.createMethodOptions
     !! "method.request.path.userId" = Some true ∧
   MethodOptions.requestParameters Simple.createMethodOptions
     !! "method.request.path.fileName" = Some true ∧
   MethodOptions.requestParameters Simple.createMethodOptions
     !! "method.request.header.Content-Type" = None ∧
   MethodOptions.apiKeyRequired Simple.createMethodOptions = None ∧
   core.usagePlans (Simple.stack props) = [] ∧
   map Method.options
       (List.filter (λ m, negb (String.eqb (Method.httpMethod m) "OPTIONS"))
                    (core.methods (Simple.stack props)))
     = [Simple.createMethodOptions]) ∧
  (MethodOptions.requestParameters Extended.createMethodOptions
     !! "method.request.path.userId" = Some true ∧
   MethodOptions.requestParameters Extended.createMethodOptions
     !! "method.request.path.fileName" = Some true ∧
   MethodOptions.requestParameters Extended.createMethodOptions
     !! "method.request.header.Content-Type" = Some true ∧
   MethodOptions.apiKeyRequired Extended.createMethodOptions = Some true ∧
   core.usagePlans (Extended.stack props) ≠ [] ∧
   map Method.options
       (List.filter (λ m, negb (String.eqb (Method.httpMethod m) "OPTIONS"))
                    (core.methods (Extended.stack props)))
     = [Extended.createMethodOptions; Extended.createMethodOptions]).
Proof.
  split.
  - repeat split; reflexivity.
  - repeat split; try reflexivity.
    rewrite extended_usage_plans. discriminate.
Qed.

(** C8. In both stacks the status codes the method advertises are
    exactly 200, 400 and 500, the status codes of the three entries of
    the response table; the 200 response declares Timestamp,
    Content-Length and Content-Type next to the three CORS headers, the
    400 and 500 responses declare the three CORS headers and nothing
    else. *)
Theorem method_responses_mirror_tiers (prop : IntegrationProp) :
  let cors : gset string :=
    {[ "method.response.header.Access-Control-Allow-Headers";
       "method.response.header.Access-Control-Allow-Methods";
       "method.response.header.Access-Control-Allow-Origin" ]} in
  let content : gset string :=
    {[ "method.response.header.Timestamp";
       "method.response.header.Content-Length";
       "method.response.header.Content-Type" ]} in
  let declared (o : MethodOptions.t) :=
    map (λ r, (MethodResponse.statusCode r, dom (MethodResponse.responseParameters r)))
        (MethodOptions.methodResponses o) in
  let advertised (o : MethodOptions.t) : gset string :=
    list_to_set (map MethodResponse.statusCode (MethodOptions.methodResponses o)) in
  let answered (table : list IntegrationResponse.t) : gset string :=
    list_to_set (map IntegrationResponse.statusCode table) in
  (advertised Simple.createMethodOptions = {[ "200"; "400"; "500" ]} ∧
   advertised Simple.createMethodOptions = answered (simple_table prop) ∧
   declared Simple.createMethodOptions
     = [("200", content ∪ cors); ("400", cors); ("500", cors)]) ∧
  (advertised Extended.createMethodOptions = {[ "200"; "400"; "500" ]} ∧
   advertised Extended.createMethodOptions = answered (extended_table prop) ∧
   declared Extended.createMethodOptions
     = [("200", content ∪ cors); ("400", cors); ("500", cors)]).
Proof.
  cbv zeta. rewrite simple_table_eq, extended_table_eq.
  repeat split; vm_compute; reflexivity.
Qed.

(** * The usage plan *)

(** C9. Only the two-route stack declares a rate-limit policy: one usage
    plan with a quota of 30 per day, a burst limit of 2 and a rate of 1,
    holding the one API key the stack provisions and bound to the
    deployed stage, and one output carrying that key's identifier.  The
    single-route stack declares no plan, no key and no output carrying
    a key identifier. *)
Theorem usage_plan_only_extended (props : Props) :
  (∃ plan key,
     core.usagePlans (Extended.stack props) = [plan] ∧
     core.apiKeys (Extended.stack props) = [key] ∧
     UsagePlan.quota plan = Some {| limit := 30; period := DAY |} ∧
     UsagePlan.throttle plan = Some {| burstLimit := 2; rateLimit := 1 |} ∧
     UsagePlan.apiKeys plan = [key] ∧
     UsagePlan.apiStages plan
       = map RestApi.deploymentStage (core.restApis (Extended.stack props)) ∧
     length (core.restApis (Extended.stack props)) = 1 ∧
     List.filter
       (λ o, match core.value o with core.ApiKeyId _ => true | _ => false end)
       (core.outputs (Extended.stack props))
       = [ {| core.id := "APIKey"; core.value := core.ApiKeyId (keyId key) |} ]) ∧
  (core.usagePlans (Simple.stack props) = [] ∧
   core.apiKeys (Simple.stack props) = [] ∧
   List.filter
     (λ o, match core.value o with core.ApiKeyId _ => true | _ => false end)
     (core.outputs (Simple.stack props)) = []).
Proof.
  split.
  - eexists _, {| keyId := "defaultKeys" |}.
    split; [apply extended_usage_plans |].
    repeat split; reflexivity.
  - repeat split; reflexivity.
Qed.

(** * Selection of a response entry *)

Arguments pattern_matches : simpl never.

Lemma parse_client_error_pattern :
  parse_pattern "4\d{2}" = Some [(Lit "4", 1); (Digit, 2)].
Proof. reflexivity. Qed.

Lemma parse_server_error_pattern :
  parse_pattern "5\d{2}" = Some [(Lit "5", 1); (Digit, 2)].
Proof. reflexivity. Qed.

(** No status text is matched by both error patterns: they disagree on
    the first character. *)
Lemma error_patterns_disjoint (s : string) :
  pattern_matches "4\d{2}" s && pattern_matches "5\d{2}" s = false.
Proof.
  unfold pattern_matches.
  rewrite parse_client_error_pattern, parse_server_error_pattern.
  destruct s as [|c s]; [reflexivity|].
  cbn [matches consume atom_accepts].
  destruct (Ascii.eqb_spec "4" c) as [<-|_]; [|reflexivity].
  apply andb_false_intro2. reflexivity.
Qed.

(** What the table of a stack selects, by the verdict of the two
    patterns on the status. *)
Lemma simple_selection (s : string) :
  let table := [Simple.createOkResponse; Simple.createNotFoundResponse;
                Simple.createServerErrorResponse] in
  let tier :=
    if pattern_matches "4\d{2}" s then Simple.createNotFoundResponse
    else if pattern_matches "5\d{2}" s then Simple.createServerErrorResponse
    else Simple.createOkResponse in
  List.filter (λ r, selects table r s) table = [tier] ∧
  selectIntegrationResponse table s = Some tier.
Proof.
  intros table tier. subst table tier.
  pose proof (error_patterns_disjoint s) as Hdis.
  unfold selectIntegrationResponse, selects, has_pattern_for. simpl.
  destruct (pattern_matches "4\d{2}" s), (pattern_matches "5\d{2}" s);
    simpl in *; try discriminate; split; reflexivity.
Qed.

Lemma extended_selection (s : string) :
  let table := [Extended.createOkResponse; Extended.createNotFoundResponse;
                Extended.createServerErrorResponse] in
  let tier :=
    if pattern_matches "4\d{2}" s then Extended.createNotFoundResponse
    else if pattern_matches "5\d{2}" s then Extended.createServerErrorResponse
    else Extended.createOkResponse in
  List.filter (λ r, selects table r s) table = [tier] ∧
  selectIntegrationResponse table s = Some tier.
Proof.
  intros table tier. subst table tier.
  pose proof (error_patterns_disjoint s) as Hdis.
  unfold selectIntegrationResponse, selects, has_pattern_for. simpl.
  destruct (pattern_matches "4\d{2}" s), (pattern_matches "5\d{2}" s);
    simpl in *; try discriminate; split; reflexivity.
Qed.

Lemma class_verdict_spec lo client server code :
  class_verdict lo client server = true →
  (lo ≤ code < lo + 100)%nat →
  pattern_matches "4\d{2}" (status_text code) = client ∧
  pattern_matches "5\d{2}" (status_text code) = server.
Proof.
  unfold class_verdict. rewrite forallb_forall. intros Hall Hrange.
  specialize (Hall code). rewrite in_seq in Hall.
  specialize (Hall Hrange).
  apply andb_prop in Hall as [H4 H5].
  apply Bool.eqb_prop in H4, H5. by split.
Qed.

(** C2. For a status code of one of the classes the backend produces
    (2xx, 4xx, 5xx), the table of either stack has exactly one entry whose
    selection predicate holds, and it is the entry the gateway answers
    with: the 200 entry for 2xx, the 400 entry for 4xx, the 500 entry for
    5xx.  The two patterns never match the same status, and a status
    neither matches is left to the default 200 entry. *)
Theorem one_tier_per_status (prop : IntegrationProp) (code : nat) :
  (200 ≤ code < 300 ∨ 400 ≤ code < 500 ∨ 500 ≤ code < 600)%nat →
  Forall (λ table : list IntegrationResponse.t,
    ∃ tier,
      List.filter (λ r, selects table r (status_text code)) table = [tier] ∧
      selectIntegrationResponse table (status_text code) = Some tier ∧
      IntegrationResponse.statusCode tier =
        (if (code <? 300)%nat then "200"
         else if (code <? 500)%nat then "400" else "500"))
    [simple_table prop; extended_table prop] ∧
  (∀ s, pattern_matches "4\d{2}" s && pattern_matches "5\d{2}" s = false) ∧
  (∀ s, pattern_matches "4\d{2}" s = false →
        pattern_matches "5\d{2}" s = false →
        Forall (λ table : list IntegrationResponse.t,
          ∃ tier, selectIntegrationResponse table s = Some tier ∧
                  IntegrationResponse.statusCode tier = "200")
          [simple_table prop; extended_table prop]).
Proof.
  intros Hclass.
  assert (Hverdict :
    pattern_matches "4\d{2}" (status_text code) = (400 <=? code)%nat && (code <? 500)%nat ∧
    pattern_matches "5\d{2}" (status_text code) = (500 <=? code)%nat).
  { destruct Hclass as [H | [H | H]].
    - destruct (class_verdict_spec 200 false false code) as [-> ->];
        [by vm_compute | lia |].
      split; symmetry.
      + apply andb_false_intro1, Nat.leb_gt. lia.
      + apply Nat.leb_gt. lia.
    - destruct (class_verdict_spec 400 true false code) as [-> ->];
        [by vm_compute | lia |].
      split; symmetry.
      + apply andb_true_intro. split; [apply Nat.leb_le | apply Nat.ltb_lt]; lia.
      + apply Nat.leb_gt. lia.
    - destruct (class_verdict_spec 500 false true code) as [-> ->];
        [by vm_compute | lia |].
      split; symmetry.
      + apply andb_false_intro2, Nat.ltb_ge. lia.
      + apply Nat.leb_le. lia. }
  destruct Hverdict as [H4 H5].
  split; [| split].
  - rewrite simple_table_eq, extended_table_eq.
    destruct (simple_selection (status_text code)) as [Hsf Hss].
    destruct (extended_selection (status_text code)) as [Hef Hes].
    rewrite H4, H5 in Hsf, Hss, Hef, Hes.
    repeat apply Forall_cons_2; [ | | apply Forall_nil_2 ];
      (eexists; split; [eassumption | split; [eassumption |]]);
      destruct (Nat.leb_spec 400 code), (Nat.ltb_spec code 500),
        (Nat.leb_spec 500 code), (Nat.ltb_spec code 300);
      try lia; reflexivity.
  - apply error_patterns_disjoint.
  - intros s Hn4 Hn5.
    rewrite simple_table_eq, extended_table_eq.
    destruct (simple_selection s) as [_ Hss].
    destruct (extended_selection s) as [_ Hes].
    rewrite Hn4, Hn5 in Hss, Hes.
    repeat apply Forall_cons_2; [ | | apply Forall_nil_2 ];
      (eexists; split; [eassumption | reflexivity]).
Qed.

Lemma one_tier_per_status_witness :
  (200 ≤ 404 < 300 ∨ 400 ≤ 404 < 500 ∨ 500 ≤ 404 < 600)%nat ∧
  pattern_matches "4\d{2}" "404" && pattern_matches "5\d{2}" "404" = false.
Proof.
  assert (H : (200 ≤ 404 < 300 ∨ 400 ≤ 404 < 500 ∨ 500 ≤ 404 < 600)%nat)
    by (right; left; lia).
  split; [exact H |].
  exact (proj1 (proj2 (one_tier_per_status
    {| toUploadBucketPath := "aws-whitemap-cloudfront/data/bgms/{folder}/{object}";
       restApiRole := {| iam.id := "Role";
                         iam.assumedBy := {| iam.service := "apigateway.amazonaws.com" |};
                         iam.managedPolicies := [];
                         iam.path := "/" |} |} 404 H)) "404").
Defined.

(** * Routes and storage keys *)

Arguments expand : simpl never.
Arguments path_binding : simpl never.

Lemma free_of_cons c a s :
  free_of c (String a s) = true → Ascii.eqb a c = false ∧ free_of c s = true.
Proof.
  simpl. intros H. apply andb_prop in H as [Ha Hs].
  apply negb_true_iff in Ha. by split.
Qed.

Lemma append_nil (s : string) : "" +:+ s = s.
Proof. reflexivity. Qed.

Lemma append_cons (a : ascii) (s t : string) :
  String a s +:+ t = String a (s +:+ t).
Proof. reflexivity. Qed.

Lemma append_nil_r (s : string) : s +:+ "" = s.
Proof.
  induction s as [|x s IH]; [reflexivity |].
  by rewrite append_cons, IH.
Qed.

Lemma append_assoc (a b c : string) : (a +:+ b) +:+ c = a +:+ (b +:+ c).
Proof.
  induction a as [|x a IH]; [reflexivity |].
  by rewrite !append_cons, IH.
Qed.

(** Literal text before the first brace is copied. *)
Lemma expand_plain_prefix env (b t : string) :
  free_of "{" b = true →
  expand env (b +:+ t) = String.append b <$> expand env t.
Proof.
  unfold expand. induction b as [|a b IH]; intros Hfree.
  - rewrite append_nil. by destruct (expand_from env None t).
  - apply free_of_cons in Hfree as [Ha Hb].
    rewrite append_cons. cbn [expand_from]. rewrite Ha, (IH Hb).
    by destruct (expand_from env None t).
Qed.

(** The two variables of an upload path, bound. *)
Lemma expand_folder_object env (u f : string) :
  env "folder" = Some u → env "object" = Some f →
  expand env "{folder}/{object}" = Some (u +:+ "/" +:+ f).
Proof.
  intros Hu Hf. unfold expand.
  transitivity
    (v ← env "folder";
     rest ← String "/" <$> (w ← env "object"; Some (w +:+ ""));
     Some (v +:+ rest)); [reflexivity |].
  rewrite Hu, Hf. cbn. by rewrite append_nil_r.
Qed.

Lemma split_bucket_cons (c : ascii) (r : string) :
  split_bucket (String c r) =
  if Ascii.eqb c "/" then ("", r)
  else (String c (split_bucket r).1, (split_bucket r).2).
Proof. simpl. destruct (Ascii.eqb c "/"); [reflexivity |]. by destruct (split_bucket r). Qed.

Lemma split_bucket_prefix (b k : string) :
  free_of "/" b = true → split_bucket (b +:+ String "/" k) = (b, k).
Proof.
  induction b as [|a b IH]; intros Hfree.
  - reflexivity.
  - apply free_of_cons in Hfree as [Ha Hb].
    rewrite append_cons, split_bucket_cons, Ha, (IH Hb). reflexivity.
Qed.

(** The path of an upload, from bucket, category and the two values. *)
Lemma expand_upload_path env (b category u f : string) :
  free_of "{" b = true → free_of "{" category = true →
  env "folder" = Some u → env "object" = Some f →
  expand env (b +:+ "/data/" +:+ category +:+ "/{folder}/{object}")
  = Some (b +:+ "/data/" +:+ category +:+ "/" +:+ u +:+ "/" +:+ f).
Proof.
  intros Hb Hc Hu Hf.
  rewrite (expand_plain_prefix env b) by exact Hb.
  rewrite (expand_plain_prefix env "/data/") by reflexivity.
  rewrite (expand_plain_prefix env category) by exact Hc.
  change "/{folder}/{object}" with ("/" +:+ "{folder}/{object}").
  rewrite (expand_plain_prefix env "/") by reflexivity.
  rewrite (expand_folder_object env u f Hu Hf). reflexivity.
Qed.

Lemma simple_binding (u f : string) :
  let env := path_binding
    (IntegrationOptions.requestParameters
       (AwsIntegration.options
          (Simple.createAwsIntegrationToUploadBackgroundImage
             {| toUploadBucketPath := ""; restApiRole := stack_role |})))
    [("userId", u); ("fileName", f)] in
  env "folder" = Some u ∧ env "object" = Some f.
Proof. split; reflexivity. Qed.

Lemma extended_binding (u f : string) :
  let env := path_binding
    (IntegrationOptions.requestParameters
       (AwsIntegration.options
          (Extended.createAwsIntegrationToUploadBucket
             {| toUploadBucketPath := ""; restApiRole := stack_role |})))
    [("userId", u); ("fileName", f)] in
  env "folder" = Some u ∧ env "object" = Some f.
Proof. split; reflexivity. Qed.

(** Bucket and key of an upload path once its variables are bound. *)
Lemma upload_path_target env (b category u f : string) :
  plain_bucket_name b = true → free_of "{" category = true →
  env "folder" = Some u → env "object" = Some f →
  (p ← expand env (b +:+ "/data/" +:+ category +:+ "/{folder}/{object}");
   Some {| bucket := (split_bucket p).1; key := (split_bucket p).2 |})
  = Some {| bucket := b;
            key := "data/" +:+ category +:+ "/" +:+ u +:+ "/" +:+ f |}.
Proof.
  intros Hb Hc Hu Hf.
  apply andb_prop in Hb as [Hslash Hbrace].
  rewrite (expand_upload_path env b category u f Hbrace Hc Hu Hf). cbn.
  change (b +:+ "/data/" +:+ category +:+ "/" +:+ u +:+ "/" +:+ f)
    with (b +:+ String "/" ("data/" +:+ category +:+ "/" +:+ u +:+ "/" +:+ f)).
  by rewrite (split_bucket_prefix _ _ Hslash).
Qed.

Lemma simple_upload_target props (u f : string) :
  plain_bucket_name (bucketName (clientStack props)) = true →
  upload_target (Simple.stack props) (put ["users"; u; "files"; f])
  = Some {| bucket := bucketName (clientStack props);
            key := "data/background-images/" +:+ u +:+ "/" +:+ f |}.
Proof.
  intros Hb. unfold upload_target. rewrite simple_methods.
  destruct (simple_binding u f) as [Hu Hf].
  exact (upload_path_target _ _ "background-images" u f Hb eq_refl Hu Hf).
Qed.

Lemma extended_image_upload_target props (u f : string) :
  plain_bucket_name (bucketName (clientStack props)) = true →
  upload_target (Extended.stack props)
    (put ["users"; u; "files"; "background-images"; f])
  = Some {| bucket := bucketName (clientStack props);
            key := "data/background-images/" +:+ u +:+ "/" +:+ f |}.
Proof.
  intros Hb. unfold upload_target. rewrite extended_methods.
  destruct (extended_binding u f) as [Hu Hf].
  exact (upload_path_target _ _ "background-images" u f Hb eq_refl Hu Hf).
Qed.

Lemma extended_bgm_upload_target props (u f : string) :
  plain_bucket_name (bucketName (clientStack props)) = true →
  upload_target (Extended.stack props) (put ["users"; u; "files"; "bgms"; f])
  = Some {| bucket := bucketName (clientStack props);
            key := "data/bgms/" +:+ u +:+ "/" +:+ f |}.
Proof.
  intros Hb. unfold upload_target. rewrite extended_methods.
  destruct (extended_binding u f) as [Hu Hf].
  exact (upload_path_target _ _ "bgms" u f Hb eq_refl Hu Hf).
Qed.

Lemma append_prefix_inj (p a b : string) : p +:+ a = p +:+ b → a = b.
Proof.
  induction p as [|x p IH]; [by rewrite !append_nil |].
  rewrite !append_cons. intros H. injection H as H. by apply IH.
Qed.

(** Two slash-free first components followed by a slash can be read back
    from the whole. *)
Lemma append_slash_inj (u1 u2 f1 f2 : string) :
  free_of "/" u1 = true → free_of "/" u2 = true →
  u1 +:+ String "/" f1 = u2 +:+ String "/" f2 → u1 = u2 ∧ f1 = f2.
Proof.
  revert u2. induction u1 as [|a u1 IH]; intros [|b u2] H1 H2;
    rewrite ?append_nil, ?append_cons; intros Heq.
  - injection Heq as ->. by split.
  - apply free_of_cons in H2 as [Hb _].
    injection Heq as <- _. discriminate Hb.
  - apply free_of_cons in H1 as [Ha _].
    injection Heq as -> _. discriminate Ha.
  - apply free_of_cons in H1 as [_ H1]. apply free_of_cons in H2 as [_ H2].
    injection Heq as -> Heq.
    destruct (IH u2 H1 H2 Heq) as [-> ->]. by split.
Qed.

Lemma valid_path_param_free (s : string) :
  valid_path_param s = true → free_of "/" s = true.
Proof. unfold valid_path_param. intros H. by apply andb_prop in H as [_ H]. Qed.

(** Keys under one category determine the user and the file, as soon as
    the user ids are single path segments. *)
Lemma category_key_inj (category u1 f1 u2 f2 : string) :
  free_of "/" u1 = true → free_of "/" u2 = true →
  category +:+ u1 +:+ "/" +:+ f1 = category +:+ u2 +:+ "/" +:+ f2 →
  (u1, f1) = (u2, f2).
Proof.
  intros H1 H2 Heq. apply append_prefix_inj in Heq.
  destruct (append_slash_inj u1 u2 f1 f2 H1 H2 Heq) as [-> ->]. reflexivity.
Qed.

(** C4. For each of the three routes, two requests whose user id and
    file name are valid path parameters and differ in one of them are
    stored under different keys (and each request does have a key). *)
Theorem storage_key_injective (props : Props) (u1 f1 u2 f2 : string) :
  plain_bucket_name (bucketName (clientStack props)) = true →
  valid_path_param u1 = true → valid_path_param f1 = true →
  valid_path_param u2 = true → valid_path_param f2 = true →
  (u1, f1) ≠ (u2, f2) →
  (is_Some (storage_key (Simple.stack props) (put ["users"; u1; "files"; f1])) ∧
   storage_key (Simple.stack props) (put ["users"; u1; "files"; f1])
   ≠ storage_key (Simple.stack props) (put ["users"; u2; "files"; f2])) ∧
  (is_Some (storage_key (Extended.stack props)
              (put ["users"; u1; "files"; "background-images"; f1])) ∧
   storage_key (Extended.stack props)
     (put ["users"; u1; "files"; "background-images"; f1])
   ≠ storage_key (Extended.stack props)
       (put ["users"; u2; "files"; "background-images"; f2])) ∧
  (is_Some (storage_key (Extended.stack props)
              (put ["users"; u1; "files"; "bgms"; f1])) ∧
   storage_key (Extended.stack props) (put ["users"; u1; "files"; "bgms"; f1])
   ≠ storage_key (Extended.stack props) (put ["users"; u2; "files"; "bgms"; f2])).
Proof.
  intros Hb Hu1 _ Hu2 _ Hne.
  apply valid_path_param_free in Hu1, Hu2.
  unfold storage_key.
  rewrite !(simple_upload_target props _ _ Hb),
          !(extended_image_upload_target props _ _ Hb),
          !(extended_bgm_upload_target props _ _ Hb).
  cbn [fmap option_fmap option_map key].
  repeat split; try (eexists; reflexivity);
    intros Heq; injection Heq as Heq; apply Hne;
    eapply category_key_inj; eauto.
Qed.

Lemma storage_key_injective_witness :
  storage_key (Simple.stack properties) (put ["users"; "alice"; "files"; "cat.png"])
  ≠ storage_key (Simple.stack properties) (put ["users"; "bob"; "files"; "cat.png"]).
Proof.
  refine (proj2 (proj1 (storage_key_injective properties
    "alice" "cat.png" "bob" "cat.png" _ _ _ _ _ _))); try reflexivity.
  intros H. discriminate H.
Defined.

(** Without the restriction to single segments the derivation is not
    injective: a slash can move between the user id and the file name. *)
Example storage_key_needs_segments :
  storage_key (Simple.stack properties) (put ["users"; "a/b"; "files"; "c"])
  = storage_key (Simple.stack properties) (put ["users"; "a"; "files"; "b/c"]).
Proof. reflexivity. Qed.

(** * Which requests are served *)

(** Decide the string comparisons a route makes, one after the other. *)
Ltac route_cases :=
  cbn -[String.eqb];
  repeat match goal with
  | |- context [String.eqb ?a ?b] =>
      destruct (String.eqb_spec a b) as [<-|]; cbn -[String.eqb]
  end;
  try (intros H; discriminate H).

(** The requests the single route accepts, and what it binds. *)
Lemma match_simple_route (segments : list string) bs :
  match_parts ["users"; "{userId}"; "files"; "{fileName}"] segments = Some bs ↔
  ∃ u f, segments = ["users"; u; "files"; f] ∧
         bs = [("userId", u); ("fileName", f)].
Proof.
  split.
  - destruct segments as [|s1 [|u [|s3 [|f [|? ?]]]]]; route_cases.
    intros [= <-]. by exists u, f.
  - intros (u & f & -> & ->). reflexivity.
Qed.

Lemma match_category_route (category : string) (segments : list string) bs :
  path_variable category = None →
  match_parts ["users"; "{userId}"; "files"; category; "{fileName}"] segments
    = Some bs ↔
  ∃ u f, segments = ["users"; u; "files"; category; f] ∧
         bs = [("userId", u); ("fileName", f)].
Proof.
  intros Hlit. split.
  - destruct segments as [|s1 [|u [|s3 [|s4 [|f [|? ?]]]]]];
      cbn -[String.eqb]; rewrite ?Hlit; route_cases.
    intros [= <-]. by exists u, f.
  - intros (u & f & -> & ->). cbn -[String.eqb].
    rewrite Hlit, !String.eqb_refl. reflexivity.
Qed.

(** The method a request is routed to is one of the stack's, has the
    verb of the request and a resource matching its path. *)
Lemma route_sound (ms : list Method.t) (req : Request) m bs :
  route ms req = Some (m, bs) →
  m ∈ ms ∧ Method.httpMethod m = requestMethod req ∧
  match_parts (Method.resource m) (requestPath req) = Some bs.
Proof.
  induction ms as [|m0 ms IH]; [discriminate |].
  cbn -[String.eqb match_parts].
  destruct (String.eqb_spec (Method.httpMethod m0) (requestMethod req))
    as [Hverb|_].
  - destruct (match_parts (Method.resource m0) (requestPath req))
      as [bs0|] eqn:Hm.
    + intros [= <- <-]. split; [apply elem_of_cons; by left | by split].
    + intros H. destruct (IH H) as (? & ? & ?).
      split; [apply elem_of_cons; by right | by split].
  - intros H. destruct (IH H) as (? & ? & ?).
    split; [apply elem_of_cons; by right | by split].
Qed.

(** An object is written exactly when the request is routed to a method
    that admits it and whose integration is a PUT to the storage
    service; the object is the one the integration path names. *)
Lemma stored_object_iff (st : core.Stack) (req : Request) (t : Target) :
  stored_object st req = Some t ↔
  ∃ m bs i p,
    route (core.methods st) req = Some (m, bs) ∧
    Method.integration m = Integration.Aws i ∧
    admitted st m req = true ∧
    AwsIntegration.service i = "s3" ∧
    AwsIntegration.integrationHttpMethod i = "PUT" ∧
    integration_path i bs = Some p ∧
    t = {| bucket := (split_bucket p).1; key := (split_bucket p).2 |}.
Proof.
  unfold stored_object, forward. split.
  - destruct (route (core.methods st) req) as [[m bs]|]; [|discriminate].
    destruct (admitted st m req) eqn:Hadm; [|discriminate].
    destruct (Method.integration m) as [i|mock] eqn:Hi; [|discriminate].
    destruct (integration_path i bs) as [p|] eqn:Hp; [|discriminate].
    cbn -[String.eqb].
    destruct (String.eqb_spec (AwsIntegration.service i) "s3") as [Hs|];
      [|discriminate].
    destruct (String.eqb_spec (AwsIntegration.integrationHttpMethod i) "PUT")
      as [Hv|]; [|discriminate].
    intros [= <-]. by exists m, bs, i, p.
  - intros (m & bs & i & p & -> & Hi & -> & Hs & Hv & Hp & ->).
    rewrite Hi, Hp. cbn -[String.eqb]. rewrite Hs, Hv. reflexivity.
Qed.

(** The path an upload integration calls. *)
Lemma simple_integration_path props (u f : string) :
  free_of "{" (bucketName (clientStack props)) = true →
  ∀ i, Method.integration (simple_upload_method props) = Integration.Aws i →
  integration_path i [("userId", u); ("fileName", f)]
  = Some (bucketName (clientStack props) +:+ "/data/" +:+ "background-images"
          +:+ "/" +:+ u +:+ "/" +:+ f).
Proof.
  intros Hb i [= <-]. destruct (simple_binding u f) as [Hu Hf].
  exact (expand_upload_path _ _ "background-images" u f Hb eq_refl Hu Hf).
Qed.

Lemma extended_image_integration_path props (u f : string) :
  free_of "{" (bucketName (clientStack props)) = true →
  ∀ i, Method.integration (extended_image_method props) = Integration.Aws i →
  integration_path i [("userId", u); ("fileName", f)]
  = Some (bucketName (clientStack props) +:+ "/data/" +:+ "background-images"
          +:+ "/" +:+ u +:+ "/" +:+ f).
Proof.
  intros Hb i [= <-]. destruct (extended_binding u f) as [Hu Hf].
  exact (expand_upload_path _ _ "background-images" u f Hb eq_refl Hu Hf).
Qed.

Lemma extended_bgm_integration_path props (u f : string) :
  free_of "{" (bucketName (clientStack props)) = true →
  ∀ i, Method.integration (extended_bgm_method props) = Integration.Aws i →
  integration_path i [("userId", u); ("fileName", f)]
  = Some (bucketName (clientStack props) +:+ "/data/" +:+ "bgms"
          +:+ "/" +:+ u +:+ "/" +:+ f).
Proof.
  intros Hb i [= <-]. destruct (extended_binding u f) as [Hu Hf].
  exact (expand_upload_path _ _ "bgms" u f Hb eq_refl Hu Hf).
Qed.

(** Bucket and key of the path of an upload. *)
Lemma split_upload_path (b category u f : string) :
  free_of "/" b = true →
  split_bucket (b +:+ "/data/" +:+ category +:+ "/" +:+ u +:+ "/" +:+ f)
  = (b, "data/" +:+ category +:+ "/" +:+ u +:+ "/" +:+ f).
Proof.
  intros Hb.
  change (b +:+ "/data/" +:+ category +:+ "/" +:+ u +:+ "/" +:+ f)
    with (b +:+ String "/" ("data/" +:+ category +:+ "/" +:+ u +:+ "/" +:+ f)).
  by apply split_bucket_prefix.
Qed.

(** A preflight method is answered by the gateway itself. *)
Lemma preflight_is_mock (r : Resource) (i : AwsIntegration.t) :
  Method.integration (preflight r) ≠ Integration.Aws i.
Proof. discriminate. Qed.

(** The only good key of the two-route stack is the one it provisions;
    the single-route stack has none. *)
Lemma extended_rest_apis props :
  core.restApis (Extended.stack props) =
  [ {| RestApi.id := restApiGatewayName (apiStack props);
       RestApi.restApiName := restApiGatewayName (apiStack props);
       RestApi.deployOptions := {| stageName := "v1" |};
       RestApi.defaultCorsPreflightOptions := stack_cors;
       RestApi.binaryMediaTypes := Some ["image/*"; "audio/*"] |} ].
Proof. reflexivity. Qed.

Lemma simple_rest_apis props :
  core.restApis (Simple.stack props) =
  [ {| RestApi.id := restApiGatewayName (apiStack props);
       RestApi.restApiName := restApiGatewayName (apiStack props);
       RestApi.deployOptions := {| stageName := "v1" |};
       RestApi.defaultCorsPreflightOptions := stack_cors;
       RestApi.binaryMediaTypes := None |} ].
Proof. reflexivity. Qed.

Lemma extended_good_key props (k : ApiKey) :
  key_in_plan (Extended.stack props) k = true ↔ k = {| keyId := "defaultKeys" |}.
Proof.
  unfold key_in_plan. rewrite extended_usage_plans, extended_rest_apis.
  cbn. rewrite !orb_false_r, andb_true_r, bool_decide_eq_true.
  apply list_elem_of_singleton.
Qed.

(** What the single-route stack writes. *)
Lemma simple_stored_object_iff (props : Props) (req : Request) (t : Target) :
  plain_bucket_name (bucketName (clientStack props)) = true →
  stored_object (Simple.stack props) req = Some t ↔
  ∃ u f, requestMethod req = "PUT" ∧
         requestPath req = ["users"; u; "files"; f] ∧
         t = {| bucket := bucketName (clientStack props);
                key := "data/background-images/" +:+ u +:+ "/" +:+ f |}.
Proof.
  intros Hb. apply andb_prop in Hb as [Hslash Hbrace].
  rewrite stored_object_iff. split.
  - intros (m & bs & i & p & Hr & Hi & _ & _ & _ & Hp & ->).
    apply route_sound in Hr as (Hin & Hverb & Hm).
    rewrite simple_methods, !elem_of_cons in Hin.
    destruct Hin as [-> | [-> | [-> | [-> | [-> | [-> | Hin]]]]]];
      try (by destruct (preflight_is_mock _ _ Hi));
      [| by apply elem_of_nil in Hin].
    apply match_simple_route in Hm as (u & f & Hpath & ->).
    rewrite (simple_integration_path props u f Hbrace i Hi) in Hp.
    injection Hp as <-. rewrite split_upload_path by done.
    by exists u, f.
  - intros (u & f & Hverb & Hpath & ->).
    destruct req as [verb path k]. cbn in Hverb, Hpath. subst verb path.
    eexists (simple_upload_method props), _, _, _.
    split; [rewrite simple_methods; reflexivity |].
    split; [reflexivity |]. split; [reflexivity |].
    split; [reflexivity |]. split; [reflexivity |].
    split; [by apply (simple_integration_path props u f Hbrace) |].
    by rewrite split_upload_path.
Qed.

(** X1. With the single-route stack a request writes an object exactly
    when it is a PUT on /users/<u>/files/<f>, with or without an API key:
    the gateway then calls PUT on the storage service for the object
    data/background-images/<u>/<f> of the bucket of the properties.  No
    other verb and no other path writes anything. *)
Theorem simple_served_requests (props : Props) (req : Request) (t : Target) :
  plain_bucket_name (bucketName (clientStack props)) = true →
  stored_object (Simple.stack props) req = Some t ↔
  ∃ u f, requestMethod req = "PUT" ∧
         requestPath req = ["users"; u; "files"; f] ∧
         t = {| bucket := bucketName (clientStack props);
                key := "data/background-images/" +:+ u +:+ "/" +:+ f |}.
Proof. exact (simple_stored_object_iff props req t). Qed.

Lemma simple_served_requests_witness :
  stored_object (Simple.stack properties) (put ["users"; "alice"; "files"; "cat.png"])
  = Some {| bucket := "aws-whitemap-cloudfront";
            key := "data/background-images/alice/cat.png" |}.
Proof.
  apply (simple_served_requests properties); [reflexivity |].
  exists "alice", "cat.png". repeat split.
Defined.

(** What the two-route stack writes. *)
Lemma extended_stored_object_iff (props : Props) (req : Request) (t : Target) :
  plain_bucket_name (bucketName (clientStack props)) = true →
  stored_object (Extended.stack props) req = Some t ↔
   ∃ u f,
     requestMethod req = "PUT" ∧
     requestApiKey req = Some {| keyId := "defaultKeys" |} ∧
     ((requestPath req = ["users"; u; "files"; "background-images"; f] ∧
       t = {| bucket := bucketName (clientStack props);
              key := "data/background-images/" +:+ u +:+ "/" +:+ f |}) ∨
      (requestPath req = ["users"; u; "files"; "bgms"; f] ∧
       t = {| bucket := bucketName (clientStack props);
              key := "data/bgms/" +:+ u +:+ "/" +:+ f |})).
Proof.
  intros Hb. apply andb_prop in Hb as [Hslash Hbrace].
  rewrite stored_object_iff. split.
  - intros (m & bs & i & p & Hr & Hi & Hadm & _ & _ & Hp & ->).
    apply route_sound in Hr as (Hin & Hverb & Hm).
    rewrite extended_methods, !elem_of_cons in Hin.
    destruct Hin as [-> | [-> | [-> | [-> | [-> | [-> | [-> | [-> | [-> | [-> | Hin]]]]]]]]]];
      try (by destruct (preflight_is_mock _ _ Hi));
      [| | by apply elem_of_nil in Hin].
    + apply (match_category_route "background-images") in Hm
        as (u & f & Hpath & ->); [|reflexivity].
      rewrite (extended_image_integration_path props u f Hbrace i Hi) in Hp.
      injection Hp as <-. rewrite split_upload_path by done.
      unfold admitted in Hadm. cbn in Hadm.
      destruct (requestApiKey req) as [k|]; [|discriminate].
      apply extended_good_key in Hadm as ->.
      exists u, f. split; [done |]. split; [done |]. by left.
    + apply (match_category_route "bgms") in Hm
        as (u & f & Hpath & ->); [|reflexivity].
      rewrite (extended_bgm_integration_path props u f Hbrace i Hi) in Hp.
      injection Hp as <-. rewrite split_upload_path by done.
      unfold admitted in Hadm. cbn in Hadm.
      destruct (requestApiKey req) as [k|]; [|discriminate].
      apply extended_good_key in Hadm as ->.
      exists u, f. split; [done |]. split; [done |]. by right.
  - intros (u & f & Hverb & Hkey & Hcase).
    destruct req as [verb path k]. cbn in Hverb, Hkey, Hcase. subst verb k.
    destruct Hcase as [[-> ->] | [-> ->]].
    + eexists (extended_image_method props), _, _, _.
      split; [rewrite extended_methods; reflexivity |].
      split; [reflexivity |].
      split; [by apply extended_good_key |].
      split; [reflexivity |]. split; [reflexivity |].
      split; [by apply (extended_image_integration_path props u f Hbrace) |].
      by rewrite split_upload_path.
    + eexists (extended_bgm_method props), _, _, _.
      split; [rewrite extended_methods; reflexivity |].
      split; [reflexivity |].
      split; [by apply extended_good_key |].
      split; [reflexivity |]. split; [reflexivity |].
      split; [by apply (extended_bgm_integration_path props u f Hbrace) |].
      by rewrite split_upload_path.
Qed.



(** The claim that the surface is the upload routes alone fails on the
    stack the application builds: every resource also carries an OPTIONS
    preflight method, the one on /users for instance. *)
Lemma http_surface_counterexample :
  map (λ m, (Method.httpMethod m, Method.resource m))
      (core.methods (Simple.stack properties))
    ≠ [("PUT", ["users"; "{userId}"; "files"; "{fileName}"])] ∧
  ("OPTIONS", ["users"])
    ∈ map (λ m, (Method.httpMethod m, Method.resource m))
          (core.methods (Simple.stack properties)).
Proof.
  split.
  - vm_compute. discriminate.
  - rewrite simple_methods. apply elem_of_cons. right.
    apply elem_of_cons. by left.
Qed.

(** C5, amended. In both stacks every resource of the API, the root
    included, carries an OPTIONS preflight method answered by a mock
    integration.  The other methods are exactly: in the single-route
    stack, PUT on /users/{userId}/files/{fileName}, which calls PUT on
    the storage service for the key
    data/background-images/{userId}/{fileName}; in the two-route stack,
    PUT on /users/{userId}/files/background-images/{fileName}, for the
    key data/background-images/{userId}/{fileName}, and PUT on
    /users/{userId}/files/bgms/{fileName}, for the key
    data/bgms/{userId}/{fileName}, both for requests presenting the
    provisioned API key.  In each of these integrations the path
    variable folder is the request's userId and object its fileName. *)
Theorem http_surface (props : Props) :
  plain_bucket_name (bucketName (clientStack props)) = true →
  let is_preflight (m : Method.t) := String.eqb (Method.httpMethod m) "OPTIONS" in
  let surface (st : core.Stack) :=
    map (λ m, (Method.httpMethod m, Method.resource m))
        (List.filter (λ m, negb (is_preflight m)) (core.methods st)) in
  let preflighted (st : core.Stack) :=
    map Method.resource (List.filter is_preflight (core.methods st)) in
  (surface (Simple.stack props)
     = [("PUT", ["users"; "{userId}"; "files"; "{fileName}"])] ∧
   preflighted (Simple.stack props) = [] :: core.resources (Simple.stack props) ∧
   (∀ u f k,
      stored_object (Simple.stack props)
        {| requestMethod := "PUT"; requestPath := ["users"; u; "files"; f];
           requestApiKey := k |}
      = Some {| bucket := bucketName (clientStack props);
                key := "data/background-images/" +:+ u +:+ "/" +:+ f |}) ∧
   (∀ u f, storage_key (Simple.stack props) (put ["users"; u; "files"; f])
           = Some ("data/background-images/" +:+ u +:+ "/" +:+ f))) ∧
  (surface (Extended.stack props)
     = [("PUT", ["users"; "{userId}"; "files"; "background-images"; "{fileName}"]);
        ("PUT", ["users"; "{userId}"; "files"; "bgms"; "{fileName}"])] ∧
   preflighted (Extended.stack props)
     = [] :: core.resources (Extended.stack props) ∧
   (∀ u f,
      stored_object (Extended.stack props)
        {| requestMethod := "PUT";
           requestPath := ["users"; u; "files"; "background-images"; f];
           requestApiKey := Some {| keyId := "defaultKeys" |} |}
      = Some {| bucket := bucketName (clientStack props);
                key := "data/background-images/" +:+ u +:+ "/" +:+ f |}) ∧
   (∀ u f,
      stored_object (Extended.stack props)
        {| requestMethod := "PUT";
           requestPath := ["users"; u; "files"; "bgms"; f];
           requestApiKey := Some {| keyId := "defaultKeys" |} |}
      = Some {| bucket := bucketName (clientStack props);
                key := "data/bgms/" +:+ u +:+ "/" +:+ f |}) ∧
   (∀ u f, storage_key (Extended.stack props)
             (put ["users"; u; "files"; "background-images"; f])
           = Some ("data/background-images/" +:+ u +:+ "/" +:+ f)) ∧
   (∀ u f, storage_key (Extended.stack props)
             (put ["users"; u; "files"; "bgms"; f])
           = Some ("data/bgms/" +:+ u +:+ "/" +:+ f))) ∧
  Forall (λ m,
    if is_preflight m
    then ∃ mock, Method.integration m = Integration.Mock mock
    else
      let mapping := Integration.requestParameters (Method.integration m) in
      mapping !! "integration.request.path.folder"
        = Some "method.request.path.userId" ∧
      mapping !! "integration.request.path.object"
        = Some "method.request.path.fileName")
    (core.methods (Simple.stack props) ++ core.methods (Extended.stack props)).
Proof.
  intros Hb is_preflight surface preflighted.
  subst is_preflight surface preflighted. cbv beta.
  split; [| split].
  - split; [by rewrite simple_methods |].
    split; [by rewrite simple_methods |].
    split.
    + intros u f k. apply (simple_stored_object_iff props _ _ Hb).
      by exists u, f.
    + intros u f. unfold storage_key.
      by rewrite (simple_upload_target props u f Hb).
  - split; [by rewrite extended_methods |].
    split; [by rewrite extended_methods |].
    repeat split; intros u f.
    + apply (extended_stored_object_iff props _ _ Hb).
      exists u, f. split; [done |]. split; [done |]. by left.
    + apply (extended_stored_object_iff props _ _ Hb).
      exists u, f. split; [done |]. split; [done |]. by right.
    + unfold storage_key.
      by rewrite (extended_image_upload_target props u f Hb).
    + unfold storage_key.
      by rewrite (extended_bgm_upload_target props u f Hb).
  - rewrite simple_methods, extended_methods.
    repeat apply Forall_cons_2; try apply Forall_nil_2;
      first [ by eexists | split; reflexivity ].
Qed.

Lemma http_surface_witness :
  plain_bucket_name (bucketName (clientStack properties)) = true ∧
  storage_key (Simple.stack properties) (put ["users"; "alice"; "files"; "cat.png"])
  = Some "data/background-images/alice/cat.png".
Proof.
  assert (Hb : plain_bucket_name (bucketName (clientStack properties)) = true)
    by reflexivity.
  split; [exact Hb |].
  exact (proj2 (proj2 (proj2 (proj1 (http_surface properties Hb))))
           "alice" "cat.png").
Defined.

(** * The role the gateway writes with *)

(** X3. In both stacks, whenever a request writes an object, the
    integration that makes the call acts under the role the stack's
    createRestAPIRole declares; that role is one of the stack's roles,
    is assumed by the gateway service, and holds the stack's only
    read-write grant, which is on the very bucket the object is written
    to. *)
Theorem uploads_use_granted_role (props : Props) :
  plain_bucket_name (bucketName (clientStack props)) = true →
  Forall (λ st : core.Stack,
    ∀ req t,
      stored_object st req = Some t →
      ∃ m bs i,
        route (core.methods st) req = Some (m, bs) ∧
        Method.integration m = Integration.Aws i ∧
        let role := IntegrationOptions.credentialsRole (AwsIntegration.options i) in
        role ∈ core.roles st ∧
        iam.id role = "Role" ∧
        iam.service (iam.assumedBy role) = "apigateway.amazonaws.com" ∧
        core.grantsReadWrite st = [(bucket t, iam.id role)])
    [Simple.stack props; Extended.stack props].
Proof.
  intros Hb.
  apply Forall_cons_2; [| apply Forall_cons_2; [| apply Forall_nil_2]];
    intros req t Ht.
  - destruct (proj1 (simple_stored_object_iff props req t Hb) Ht)
      as (u & f & _ & _ & ->).
    apply stored_object_iff in Ht as (m & bs & i & p & Hr & Hi & _).
    exists m, bs, i. split; [exact Hr |]. split; [exact Hi |].
    apply route_sound in Hr as (Hin & _ & _).
    rewrite simple_methods, !elem_of_cons in Hin.
    destruct Hin as [-> | [-> | [-> | [-> | [-> | [-> | Hin]]]]]];
      try (by destruct (preflight_is_mock _ _ Hi));
      [| by apply elem_of_nil in Hin].
    injection Hi as <-. cbv zeta.
    split; [apply elem_of_cons; by left |]. repeat split.
  - destruct (proj1 (extended_stored_object_iff props req t Hb) Ht)
      as (u & f & _ & _ & Hcase).
    apply stored_object_iff in Ht as (m & bs & i & p & Hr & Hi & _).
    exists m, bs, i. split; [exact Hr |]. split; [exact Hi |].
    apply route_sound in Hr as (Hin & _ & _).
    rewrite extended_methods, !elem_of_cons in Hin.
    destruct Hin as [-> | [-> | [-> | [-> | [-> | [-> | [-> | [-> | [-> | [-> | Hin]]]]]]]]]];
      try (by destruct (preflight_is_mock _ _ Hi));
      [| | by apply elem_of_nil in Hin];
      injection Hi as <-; cbv zeta;
      (split; [apply elem_of_cons; by left |]);
      destruct Hcase as [[_ ->] | [_ ->]]; repeat split.
Qed.

Lemma uploads_use_granted_role_witness :
  ∃ m bs i,
    route (core.methods (Simple.stack properties))
          (put ["users"; "alice"; "files"; "cat.png"]) = Some (m, bs) ∧
    Method.integration m = Integration.Aws i ∧
    core.grantsReadWrite (Simple.stack properties)
    = [("aws-whitemap-cloudfront",
        iam.id (IntegrationOptions.credentialsRole (AwsIntegration.options i)))].
Proof.
  pose proof (uploads_use_granted_role properties eq_refl) as Hall.
  apply Forall_cons_1 in Hall as [Hsimple _].
  destruct (Hsimple (put ["users"; "alice"; "files"; "cat.png"])
              {| bucket := "aws-whitemap-cloudfront";
                 key := "data/background-images/alice/cat.png" |}
              eq_refl)
    as (m & bs & i & Hr & Hi & _ & _ & _ & Hgrant).
  by exists m, bs, i.
Defined.

(** * The two categories *)

(** X4. In the two-route stack an image upload and a music upload never
    share a storage key, whatever the user ids and file names are. *)
Theorem categories_never_collide (props : Props) (u f u' f' : string) :
  plain_bucket_name (bucketName (clientStack props)) = true →
  is_Some (storage_key (Extended.stack props)
             (put ["users"; u; "files"; "background-images"; f])) ∧
  is_Some (storage_key (Extended.stack props)
             (put ["users"; u'; "files"; "bgms"; f'])) ∧
  storage_key (Extended.stack props)
    (put ["users"; u; "files"; "background-images"; f])
  ≠ storage_key (Extended.stack props) (put ["users"; u'; "files"; "bgms"; f']).
Proof.
  intros Hb. unfold storage_key.
  rewrite (extended_image_upload_target props u f Hb),
          (extended_bgm_upload_target props u' f' Hb).
  cbn [fmap option_fmap option_map key].
  split; [by eexists | split; [by eexists |]].
  intros Heq. injection Heq as Heq. discriminate Heq.
Qed.

Lemma categories_never_collide_witness :
  storage_key (Extended.stack properties)
    (put ["users"; "alice"; "files"; "background-images"; "x"])
  ≠ storage_key (Extended.stack properties)
      (put ["users"; "alice"; "files"; "bgms"; "x"]).
Proof.
  exact (proj2 (proj2 (categories_never_collide properties
                         "alice" "x" "alice" "x" eq_refl))).
Defined.

(** * Request parameters *)

(** X5. In both stacks, for every method, preflight methods included,
    the method request parameters the integration's request mapping
    reads are exactly the request parameters the method declares, and
    each is declared as required: the mapping never reads an undeclared
    parameter and no declared parameter is left unused. *)
Theorem request_mapping_reads_declared (props : Props) :
  Forall (λ m : Method.t,
    let mapping := Integration.requestParameters (Method.integration m) in
    let declared := MethodOptions.requestParameters (Method.options m) in
    (∀ target source, mapping !! target = Some source →
                      declared !! source = Some true) ∧
    (∀ source required, declared !! source = Some required →
                        required = true ∧ ∃ target, mapping !! target = Some source))
    (core.methods (Simple.stack props) ++ core.methods (Extended.stack props)).
Proof.
  rewrite simple_methods, extended_methods.
  repeat apply Forall_cons_2; try apply Forall_nil_2; cbv zeta; split.
  all: match goal with
       | |- ∀ k v, ?m !! k = Some v → @?P k v => change (map_Forall P m)
       end.
  all: cbn [Method.integration Method.options AwsIntegration.options
            Integration.requestParameters
            IntegrationOptions.requestParameters MethodOptions.requestParameters
            preflight toolkit.corsPreflightMethod
            simple_upload_method extended_image_method extended_bgm_method
            Simple.createAwsIntegrationToUploadBackgroundImage
            Extended.createAwsIntegrationToUploadBucket
            Simple.createMethodOptions Extended.createMethodOptions].
  all: repeat lazymatch goal with
       | |- map_Forall ?P (<[?i:=?x]> ?m) =>
           apply (map_Forall_insert_2 P m i x)
       | |- map_Forall ?P ∅ => apply map_Forall_empty
       end.
  all: try reflexivity.
  all: split; [reflexivity |].
  all: first [ by exists "integration.request.path.object"
             | by exists "integration.request.path.folder"
             | by exists "integration.request.header.Content-Type" ].
Qed.

(** X6. In both stacks, for every method that calls a service (the
    upload methods), the path variables of the resource the method hangs
    on are declared as required path parameters of the method; and for
    every method, preflight methods included, every path parameter the
    request mapping reads is a path variable of that resource: the
    mapping never asks for a path parameter the route cannot supply. *)
Theorem path_parameters_come_from_route (props : Props) :
  Forall (λ m : Method.t,
    let mapping := Integration.requestParameters (Method.integration m) in
    let declared := MethodOptions.requestParameters (Method.options m) in
    let variables := omap path_variable (Method.resource m) in
    (∀ i, Method.integration m = Integration.Aws i →
       ∀ p, p ∈ variables →
            declared !! ("method.request.path." +:+ p) = Some true) ∧
    (∀ target source, mapping !! target = Some source →
       ∀ p, strip_prefix "method.request.path." source = Some p →
            p ∈ variables))
    (core.methods (Simple.stack props) ++ core.methods (Extended.stack props)).
Proof.
  rewrite simple_methods, extended_methods.
  repeat apply Forall_cons_2; try apply Forall_nil_2; cbv zeta; split.
  all: try (intros i Hi; by destruct (preflight_is_mock _ _ Hi)).
  all: try (intros i _ p Hp; apply list_elem_of_In in Hp;
            destruct Hp as [<- | [<- | []]]; reflexivity).
  all: match goal with
       | |- ∀ k v, ?m !! k = Some v → @?P k v => change (map_Forall P m)
       end.
  all: cbn [Method.integration AwsIntegration.options
            Integration.requestParameters
            IntegrationOptions.requestParameters
            preflight toolkit.corsPreflightMethod
            simple_upload_method extended_image_method extended_bgm_method
            Simple.createAwsIntegrationToUploadBackgroundImage
            Extended.createAwsIntegrationToUploadBucket].
  all: repeat lazymatch goal with
       | |- map_Forall ?P (<[?i:=?x]> ?m) =>
           apply (map_Forall_insert_2 P m i x)
       | |- map_Forall ?P ∅ => apply map_Forall_empty
       end.
  all: intros p Hp; vm_compute in Hp; try discriminate Hp;
       injection Hp as <-; apply list_elem_of_In; simpl; auto.
Qed.

(** * Status patterns on every status *)

Lemma digit_value_char (a : ascii) (k : nat) :
  digit_value a = Some k → a = ascii_of_nat (48 + k) ∧ (k < 10)%nat.
Proof.
  unfold digit_value.
  destruct (Nat.leb_spec 48 (nat_of_ascii a)) as [Hlo|]; [|discriminate].
  destruct (Nat.leb_spec (nat_of_ascii a) 57) as [Hhi|]; [|discriminate].
  cbn [andb]. intros [= <-]. split; [|lia].
  rewrite <- (ascii_nat_embedding a) at 1. f_equal. lia.
Qed.

(** A lead character followed by two digits, and nothing else. *)
Lemma matches_lead_two_digits (c : ascii) (s : string) :
  matches [(Lit c, 1); (Digit, 2)] s = true ↔
  ∃ a b, is_Some (digit_value a) ∧ is_Some (digit_value b) ∧
         s = String c (String a (String b "")).
Proof.
  split.
  - destruct s as [|x [|a [|b [|? ?]]]]; cbn; try discriminate;
      destruct (Ascii.eqb_spec c x) as [<-|]; try discriminate;
      repeat case_bool_decide; try discriminate.
    intros _. by exists a, b.
  - intros (a & b & Ha & Hb & ->). cbn.
    rewrite Ascii.eqb_refl, !bool_decide_eq_true_2 by done. reflexivity.
Qed.

(** X7. The pattern of the 400 entry matches a status text exactly when
    it is the character 4 followed by two decimal digits, and the pattern
    of the 500 entry exactly when it is 5 followed by two decimal digits:
    a longer, shorter or non-numeric status text matches neither. *)
Theorem error_patterns_language (s : string) :
  (pattern_matches "4\d{2}" s = true ↔
   ∃ a b, is_Some (digit_value a) ∧ is_Some (digit_value b) ∧
          s = String "4" (String a (String b ""))) ∧
  (pattern_matches "5\d{2}" s = true ↔
   ∃ a b, is_Some (digit_value a) ∧ is_Some (digit_value b) ∧
          s = String "5" (String a (String b ""))).
Proof.
  unfold pattern_matches.
  rewrite parse_client_error_pattern, parse_server_error_pattern.
  split; apply matches_lead_two_digits.
Qed.

(** The status text of a code reads back as the code. *)
Lemma status_text_decode (code : nat) :
  Nat.of_uint <$> NilZero.uint_of_string (status_text code) = Some code.
Proof.
  unfold status_text. rewrite NilZero.usu.
  - cbn. f_equal. apply Unsigned.of_to.
  - pose proof (Unsigned.to_of (Nat.to_uint code)) as H.
    rewrite Unsigned.of_to in H. rewrite H. apply unorm_nonnil.
Qed.

Lemma three_digit_code (code lead ka kb : nat) (a b : ascii) :
  (lead < 10)%nat → digit_value a = Some ka → digit_value b = Some kb →
  status_text code
    = String (ascii_of_nat (48 + lead)) (String a (String b "")) →
  code = (100 * lead + 10 * ka + kb)%nat.
Proof.
  intros Hlead Ha Hb Htext.
  apply digit_value_char in Ha as [-> Hka].
  apply digit_value_char in Hb as [-> Hkb].
  pose proof (status_text_decode code) as Hdec. rewrite Htext in Hdec.
  assert (Hall : forallb (λ l, forallb (λ x, forallb (λ y,
            bool_decide (Nat.of_uint <$> NilZero.uint_of_string
              (String (ascii_of_nat (48 + l))
                 (String (ascii_of_nat (48 + x))
                    (String (ascii_of_nat (48 + y)) "")))
              = Some (100 * l + 10 * x + y)%nat))
            (seq 0 10)) (seq 0 10)) (seq 0 10) = true) by (vm_compute; reflexivity).
  assert (Hin : ∀ k, (k < 10)%nat → In k (seq 0 10))
    by (intros k Hk; apply in_seq; lia).
  rewrite forallb_forall in Hall. specialize (Hall lead (Hin lead Hlead)).
  rewrite forallb_forall in Hall. specialize (Hall ka (Hin ka Hka)).
  rewrite forallb_forall in Hall. specialize (Hall kb (Hin kb Hkb)).
  apply bool_decide_eq_true_1 in Hall. congruence.
Qed.

(** The verdict of each pattern on the text of any code. *)
Lemma client_error_pattern_on_codes (code : nat) :
  pattern_matches "4\d{2}" (status_text code)
  = ((400 <=? code) && (code <? 500))%nat.
Proof.
  apply Bool.eq_iff_eq_true.
  rewrite andb_true_iff, Nat.leb_le, Nat.ltb_lt. split.
  - intros Hm. apply error_patterns_language in Hm
      as (a & b & [ka Ha] & [kb Hb] & Htext).
    pose proof (three_digit_code code 4 ka kb a b ltac:(lia) Ha Hb Htext).
    apply digit_value_char in Ha as [_ ?], Hb as [_ ?]. lia.
  - intros Hrange.
    by destruct (class_verdict_spec 400 true false code) as [-> _];
      [vm_compute | lia |].
Qed.

Lemma server_error_pattern_on_codes (code : nat) :
  pattern_matches "5\d{2}" (status_text code)
  = ((500 <=? code) && (code <? 600))%nat.
Proof.
  apply Bool.eq_iff_eq_true.
  rewrite andb_true_iff, Nat.leb_le, Nat.ltb_lt. split.
  - intros Hm. apply error_patterns_language in Hm
      as (a & b & [ka Ha] & [kb Hb] & Htext).
    pose proof (three_digit_code code 5 ka kb a b ltac:(lia) Ha Hb Htext).
    apply digit_value_char in Ha as [_ ?], Hb as [_ ?]. lia.
  - intros Hrange.
    by destruct (class_verdict_spec 500 false true code) as [_ ->];
      [vm_compute | lia |].
Qed.

(** X8. Whatever code the storage service answers with, either table
    selects exactly one entry: the 400 entry for 400..499, the 500 entry
    for 500..599 and the 200 entry for every other code, so a redirect
    (3xx), an informational (1xx) or an out-of-range code is reported to
    the caller as 200. *)
Theorem selection_on_every_code (prop : IntegrationProp) (code : nat) :
  Forall (λ table : list IntegrationResponse.t,
    ∃ tier,
      List.filter (λ r, selects table r (status_text code)) table = [tier] ∧
      selectIntegrationResponse table (status_text code) = Some tier ∧
      IntegrationResponse.statusCode tier =
        (if ((400 <=? code) && (code <? 500))%nat then "400"
         else if ((500 <=? code) && (code <? 600))%nat then "500"
         else "200"))
    [simple_table prop; extended_table prop].
Proof.
  rewrite simple_table_eq, extended_table_eq.
  destruct (simple_selection (status_text code)) as [Hsf Hss].
  destruct (extended_selection (status_text code)) as [Hef Hes].
  rewrite client_error_pattern_on_codes, server_error_pattern_on_codes
    in Hsf, Hss, Hef, Hes.
  repeat apply Forall_cons_2; [ | | apply Forall_nil_2 ];
    (eexists; split; [eassumption | split; [eassumption |]]);
    destruct ((400 <=? code) && (code <? 500))%nat,
             ((500 <=? code) && (code <? 600))%nat; reflexivity.
Qed.

(** * What an answer carries *)

(** Two response parameters named after different headers differ. *)
Ltac header_names_differ :=
  let H := fresh in
  intros H;
  match goal with
  | Hne : _ ≠ _ |- _ =>
      apply Hne; symmetry;
      apply (append_prefix_inj "method.response.header."); exact H
  end.

(** The headers of an answer built from the three CORS parameters: the
    three literals, unquoted, and nothing else. *)
Lemma cors_parameters_headers (upstream : gmap string string) (name : string) :
  (v ← (<["method.response.header.Access-Control-Allow-Origin" := "'*'"]>
        (<["method.response.header.Access-Control-Allow-Methods" :=
             "'OPTIONS,POST,PUT,GET,DELETE'"]>
        (<["method.response.header.Access-Control-Allow-Headers" :=
             "'Content-Type,Authorization'"]> (∅ : gmap string string))))
         !! ("method.response.header." +:+ name);
   response_value upstream v)
  = ((<["Access-Control-Allow-Origin" := "*"]>
      (<["Access-Control-Allow-Methods" := "OPTIONS,POST,PUT,GET,DELETE"]>
      (<["Access-Control-Allow-Headers" := "Content-Type,Authorization"]> ∅)))
     : gmap string string) !! name.
Proof.
  destruct (decide (name = "Access-Control-Allow-Origin")) as [->|Ho];
    [reflexivity |].
  destruct (decide (name = "Access-Control-Allow-Methods")) as [->|Hm];
    [reflexivity |].
  destruct (decide (name = "Access-Control-Allow-Headers")) as [->|Hh];
    [reflexivity |].
  rewrite !(lookup_insert_ne _ _ ("method.response.header." +:+ name))
    by header_names_differ.
  rewrite !(lookup_insert_ne _ _ name) by congruence.
  rewrite !lookup_empty. reflexivity.
Qed.

(** The 200 entry adds the three headers it takes from the storage
    service's answer. *)
Lemma content_parameters_headers (base upstream : gmap string string)
    (name : string) :
  (v ← spread base
         (<["method.response.header.Content-Type" :=
              "integration.response.header.Content-Type"]>
         (<["method.response.header.Content-Length" :=
              "integration.response.header.Content-Length"]>
         (<["method.response.header.Timestamp" :=
              "integration.response.header.Date"]> ∅)))
         !! ("method.response.header." +:+ name);
   response_value upstream v)
  = match base !! ("method.response.header." +:+ name) with
    | Some v => response_value upstream v
    | None =>
        if decide (name = "Timestamp") then upstream !! "Date"
        else if decide (name = "Content-Length" ∨ name = "Content-Type")
             then upstream !! name
             else None
    end.
Proof.
  unfold spread. rewrite lookup_union.
  destruct (base !! ("method.response.header." +:+ name)) as [v|].
  { by destruct (_ !! ("method.response.header." +:+ name)). }
  rewrite (left_id_L None (∪)).
  destruct (decide (name = "Timestamp")) as [->|Ht]; [reflexivity |].
  destruct (decide (name = "Content-Length")) as [->|Hl];
    [by rewrite decide_True by (by left) |].
  destruct (decide (name = "Content-Type")) as [->|Hc];
    [by rewrite decide_True by (by right) |].
  rewrite decide_False by (by intros [|]).
  rewrite !(lookup_insert_ne _ _ ("method.response.header." +:+ name))
    by header_names_differ.
  by rewrite lookup_empty.
Qed.

(** X9. When the storage service answers with an error code (400..599),
    the answer of either stack carries the three CORS headers with their
    literal values and no other header: whatever headers the storage
    service sent, none of them reaches the caller. *)
Theorem error_answers_carry_only_cors (prop : IntegrationProp) (code : nat)
    (upstream : gmap string string) (name : string) :
  (400 ≤ code < 600)%nat →
  Forall (λ table : list IntegrationResponse.t,
    ∃ tier,
      selectIntegrationResponse table (status_text code) = Some tier ∧
      response_header tier upstream name
      = ((<["Access-Control-Allow-Origin" := "*"]>
          (<["Access-Control-Allow-Methods" := "OPTIONS,POST,PUT,GET,DELETE"]>
          (<["Access-Control-Allow-Headers" := "Content-Type,Authorization"]> ∅)))
         : gmap string string) !! name)
    [simple_table prop; extended_table prop].
Proof.
  intros Hcode.
  rewrite simple_table_eq, extended_table_eq.
  destruct (simple_selection (status_text code)) as [_ Hs].
  destruct (extended_selection (status_text code)) as [_ He].
  rewrite client_error_pattern_on_codes, server_error_pattern_on_codes in Hs, He.
  repeat apply Forall_cons_2; [ | | apply Forall_nil_2 ];
    (eexists; split; [eassumption |]);
    destruct (Nat.leb_spec 400 code), (Nat.ltb_spec code 500),
      (Nat.leb_spec 500 code), (Nat.ltb_spec code 600);
    try lia; apply cors_parameters_headers.
Qed.

Lemma error_answers_carry_only_cors_witness :
  ∃ tier,
    selectIntegrationResponse
      [Simple.createOkResponse; Simple.createNotFoundResponse;
       Simple.createServerErrorResponse] "404" = Some tier ∧
    response_header tier {[ "x-amz-request-id" := "0A1B" ]} "x-amz-request-id"
    = None.
Proof.
  pose proof (error_answers_carry_only_cors
    {| toUploadBucketPath := "aws-whitemap-cloudfront/data/bgms/{folder}/{object}";
       restApiRole := {| iam.id := "Role";
                         iam.assumedBy := {| iam.service := "apigateway.amazonaws.com" |};
                         iam.managedPolicies := [];
                         iam.path := "/" |} |}
    404 {[ "x-amz-request-id" := "0A1B" ]} "x-amz-request-id"
    ltac:(lia)) as Hall.
  apply Forall_cons_1 in Hall as [Hsimple _]. exact Hsimple.
Defined.

(** X10. When the storage service answers with any other code, the
    answer of either stack carries Timestamp with the value of the
    upstream Date header, Content-Length and Content-Type with their
    upstream values (each only if the upstream header is present), the
    three CORS literals, and no other header. *)
Theorem success_answers_headers (prop : IntegrationProp) (code : nat)
    (upstream : gmap string string) (name : string) :
  (code < 400 ∨ 600 ≤ code)%nat →
  Forall (λ table : list IntegrationResponse.t,
    ∃ tier,
      selectIntegrationResponse table (status_text code) = Some tier ∧
      response_header tier upstream name
      = if decide (name = "Timestamp") then upstream !! "Date"
        else if decide (name = "Content-Length" ∨ name = "Content-Type")
             then upstream !! name
             else ((<["Access-Control-Allow-Origin" := "*"]>
                    (<["Access-Control-Allow-Methods" :=
                         "OPTIONS,POST,PUT,GET,DELETE"]>
                    (<["Access-Control-Allow-Headers" :=
                         "Content-Type,Authorization"]> ∅)))
                   : gmap string string) !! name)
    [simple_table prop; extended_table prop].
Proof.
  intros Hcode.
  rewrite simple_table_eq, extended_table_eq.
  destruct (simple_selection (status_text code)) as [_ Hs].
  destruct (extended_selection (status_text code)) as [_ He].
  rewrite client_error_pattern_on_codes, server_error_pattern_on_codes in Hs, He.
  assert (Hheaders :
    (v ← spread
           (<["method.response.header.Access-Control-Allow-Origin" := "'*'"]>
            (<["method.response.header.Access-Control-Allow-Methods" :=
                 "'OPTIONS,POST,PUT,GET,DELETE'"]>
            (<["method.response.header.Access-Control-Allow-Headers" :=
                 "'Content-Type,Authorization'"]> (∅ : gmap string string))))
           (<["method.response.header.Content-Type" :=
                "integration.response.header.Content-Type"]>
           (<["method.response.header.Content-Length" :=
                "integration.response.header.Content-Length"]>
           (<["method.response.header.Timestamp" :=
                "integration.response.header.Date"]> ∅)))
           !! ("method.response.header." +:+ name);
     response_value upstream v)
    = if decide (name = "Timestamp") then upstream !! "Date"
      else if decide (name = "Content-Length" ∨ name = "Content-Type")
           then upstream !! name
           else ((<["Access-Control-Allow-Origin" := "*"]>
                  (<["Access-Control-Allow-Methods" :=
                       "OPTIONS,POST,PUT,GET,DELETE"]>
                  (<["Access-Control-Allow-Headers" :=
                       "Content-Type,Authorization"]> ∅)))
                 : gmap string string) !! name).
  { rewrite content_parameters_headers.
    pose proof (cors_parameters_headers upstream name) as Hcors.
    destruct (decide (name = "Timestamp")) as [->|Ht]; [reflexivity |].
    destruct (decide (name = "Content-Length" ∨ name = "Content-Type"))
      as [[->| ->]|Hc]; [reflexivity | reflexivity |].
    destruct (_ !! ("method.response.header." +:+ name)) as [v|] eqn:Hv;
      cbn in Hcors; by rewrite <- Hcors. }
  repeat apply Forall_cons_2; [ | | apply Forall_nil_2 ];
    (eexists; split; [eassumption |]);
    destruct (Nat.leb_spec 400 code), (Nat.ltb_spec code 500),
      (Nat.leb_spec 500 code), (Nat.ltb_spec code 600);
    try lia; exact Hheaders.
Qed.

Lemma success_answers_headers_witness :
  ∃ tier,
    selectIntegrationResponse
      [Simple.createOkResponse; Simple.createNotFoundResponse;
       Simple.createServerErrorResponse] "200" = Some tier ∧
    response_header tier {[ "Date" := "Mon, 02 Nov 2026 00:00:00 GMT" ]} "Timestamp"
    = Some "Mon, 02 Nov 2026 00:00:00 GMT".
Proof.
  pose proof (success_answers_headers
    {| toUploadBucketPath := "aws-whitemap-cloudfront/data/bgms/{folder}/{object}";
       restApiRole := {| iam.id := "Role";
                         iam.assumedBy := {| iam.service := "apigateway.amazonaws.com" |};
                         iam.managedPolicies := [];
                         iam.path := "/" |} |}
    200 {[ "Date" := "Mon, 02 Nov 2026 00:00:00 GMT" ]} "Timestamp"
    ltac:(lia)) as Hall.
  apply Forall_cons_1 in Hall as [Hsimple _]. exact Hsimple.
Defined.

(** * Order of the entries and of the routes *)

Lemma three_orders {A} (a b c : A) (l : list A) :
  l ≡ₚ [a; b; c] →
  l ∈ [[a; b; c]; [b; a; c]; [b; c; a]; [a; c; b]; [c; a; b]; [c; b; a]].
Proof.
  intros Hp. symmetry in Hp. apply permutations_Permutation in Hp. exact Hp.
Qed.

(** X11. The entry selected for a status does not depend on the order in
    which the three entries are listed: any rearrangement of the table of
    either stack selects the same entry for every status text. *)
Theorem selection_ignores_order (prop : IntegrationProp)
    (table : list IntegrationResponse.t) (status : string) :
  table ≡ₚ simple_table prop →
  selectIntegrationResponse table status
    = selectIntegrationResponse (simple_table prop) status ∧
  selectIntegrationResponse table status
    = selectIntegrationResponse (extended_table prop) status.
Proof.
  rewrite simple_table_eq, extended_table_eq. intros Hp.
  apply three_orders in Hp.
  pose proof (error_patterns_disjoint status) as Hdis.
  repeat (apply elem_of_cons in Hp as [-> | Hp]);
    [ | | | | | | by apply elem_of_nil in Hp ];
    unfold selectIntegrationResponse, has_pattern_for; simpl;
    destruct (pattern_matches "4\d{2}" status),
             (pattern_matches "5\d{2}" status);
    try discriminate Hdis; split; reflexivity.
Qed.

Lemma selection_ignores_order_witness :
  selectIntegrationResponse
    [Simple.createServerErrorResponse; Simple.createOkResponse;
     Simple.createNotFoundResponse] "503"
  = selectIntegrationResponse
      [Simple.createOkResponse; Simple.createNotFoundResponse;
       Simple.createServerErrorResponse] "503".
Proof.
  refine (proj1 (selection_ignores_order
    {| toUploadBucketPath := "aws-whitemap-cloudfront/data/bgms/{folder}/{object}";
       restApiRole := {| iam.id := "Role";
                         iam.assumedBy := {| iam.service := "apigateway.amazonaws.com" |};
                         iam.managedPolicies := [];
                         iam.path := "/" |} |}
    [Simple.createServerErrorResponse; Simple.createOkResponse;
     Simple.createNotFoundResponse] "503" _)).
  rewrite simple_table_eq.
  exact (Permutation_cons_append
           [Simple.createOkResponse; Simple.createNotFoundResponse]
           Simple.createServerErrorResponse).
Defined.

Lemma length_filter_cons {A} (f : A → bool) (x : A) (l : list A) :
  length (List.filter f (x :: l))
  = ((if f x then 1 else 0) + length (List.filter f l))%nat.
Proof. cbn. by destruct (f x). Qed.

(** Count the methods claiming a request one by one. *)
Ltac count_claims :=
  rewrite !length_filter_cons;
  cbn [List.filter length Method.httpMethod Method.resource preflight
       toolkit.corsPreflightMethod simple_upload_method
       extended_image_method extended_bgm_method
       requestMethod requestPath].

(** X12. No request is claimed by two declared methods: in either stack
    at most one method has the verb of the request and a resource that
    matches its path, so the order in which the methods were added does
    not decide which one serves a request. *)
Theorem routes_never_overlap (props : Props) (req : Request) :
  Forall (λ st : core.Stack,
    (length (List.filter
       (λ m, String.eqb (Method.httpMethod m) (requestMethod req) &&
             bool_decide (is_Some (match_parts (Method.resource m)
                                               (requestPath req))))
       (core.methods st)) ≤ 1)%nat)
    [Simple.stack props; Extended.stack props].
Proof.
  destruct req as [verb path k].
  apply Forall_cons_2; [| apply Forall_cons_2; [| apply Forall_nil_2]].
  - rewrite simple_methods. count_claims.
    destruct (String.eqb_spec "OPTIONS" verb) as [<-|Hverb].
    + change (String.eqb "PUT" "OPTIONS") with false.
      destruct path as [|s1 [|s2 [|s3 [|s4 [|s5 rest]]]]];
        route_cases; cbn; lia.
    + cbn [andb]. destruct (_ && _); lia.
  - rewrite extended_methods. count_claims.
    destruct (String.eqb_spec "OPTIONS" verb) as [<-|Hverb].
    + change (String.eqb "PUT" "OPTIONS") with false.
      destruct path as [|s1 [|s2 [|s3 [|s4 [|s5 [|s6 rest]]]]]];
        route_cases; cbn; lia.
    + cbn [andb].
      destruct (String.eqb "PUT" verb); [|cbn; lia].
      cbn [andb].
      destruct (match_parts
                  ["users"; "{userId}"; "files"; "background-images"; "{fileName}"]
                  path) as [bs|] eqn:Himage;
        destruct (match_parts ["users"; "{userId}"; "files"; "bgms"; "{fileName}"]
                    path) as [bs'|] eqn:Hbgm;
        try (cbn; lia).
      apply (match_category_route "background-images") in Himage
        as (u & f & Hpath & _); [|reflexivity].
      apply (match_category_route "bgms") in Hbgm
        as (u' & f' & Hpath' & _); [|reflexivity].
      rewrite Hpath in Hpath'. discriminate Hpath'.
Qed.

(** * Preflight and answers *)

(** X13. In both stacks the preflight options of the API agree with the
    declared methods and their answers: the verb of every declared method
    is among the verbs the preflight allows, and the origin every answer
    announces in Access-Control-Allow-Origin is an origin the preflight
    allows. *)
Theorem preflight_agrees_with_answers (props : Props)
    (upstream : gmap string string) :
  Forall (λ st : core.Stack,
    Forall (λ api : RestApi.t,
      Forall (λ m : Method.t,
        Method.httpMethod m
          ∈ Cors.allowMethods (RestApi.defaultCorsPreflightOptions api) ∧
        Forall (λ r : IntegrationResponse.t,
          ∃ origin,
            response_header r upstream "Access-Control-Allow-Origin"
              = Some origin ∧
            origin ∈ Cors.allowOrigins (RestApi.defaultCorsPreflightOptions api))
          (Integration.integrationResponses (Method.integration m)))
        (core.methods st))
      (core.restApis st))
    [Simple.stack props; Extended.stack props].
Proof.
  apply Forall_cons_2; [| apply Forall_cons_2; [| apply Forall_nil_2]]; cbv beta.
  1: rewrite simple_methods, simple_rest_apis.
  2: rewrite extended_methods, extended_rest_apis.
  all: repeat first [apply Forall_cons_2 | apply Forall_nil_2 | apply conj].
  all: try (apply list_elem_of_In; cbn; tauto).
  all: exists "*"; split; [reflexivity | apply list_elem_of_In; cbn; tauto].
Qed.
